(** * Calendar projection and drag-and-drop date logic of obsidian-calendar-bases

    Shallow embedding of the date logic of the two calendar views:
    - [LinearReactView] (src/src/utils/bases.ts): the range-to-day-map
      projector, the year span, year navigation, the weekday-aligned year
      layout and the weekend flag of a day cell;
    - [CalendarReactView] (unnamed/part_002): the exclusive-end adaptation
      for the month widget and the drop handler;
    - [CalendarView] / [LinearView] (unnamed/part_000, part_001): the
      front-matter write-back and the option normalisation.

    JavaScript [Date] objects are modelled by their local time value in
    milliseconds (a [Z]), with the ECMAScript operations [Day],
    [TimeWithinDay], [MakeDay], [MakeDate], [YearFromTime],
    [MonthFromTime], [DateFromTime] and [WeekDay] on the local time line.
    The civil calendar conversion is the proleptic Gregorian one of the
    ECMAScript specification, computed with era arithmetic.  The local time
    line is that of a time zone with a fixed offset from UTC: the shift
    of a local time that falls into a daylight-saving gap is not modelled.
    [new Date(year, month, day)] reads the years 0 to 99 as 1900 to 1999,
    as ECMAScript's [MakeFullYear] does. *)

From Stdlib Require Import ZArith Lia.
From Stdlib Require Import QArith Qround Qminmax.
From Stdlib Require Import Ascii String DecimalString DecimalZ DecimalPos.
From stdpp Require Import base list gmap strings.

(** stdpp stops [simpl] on string append; the proofs below compute with it. *)
Arguments String.append : simpl nomatch.

Open Scope Z_scope.

(* ------------------------------------------------------------------ *)
(** ** Civil calendar *)

Definition msPerDay : Z := 86400000.

(** [Day(t)] and [TimeWithinDay(t)] of ECMAScript. *)
Definition Day (t : Z) : Z := t / msPerDay.
Definition TimeWithinDay (t : Z) : Z := t mod msPerDay.

(** Fields of a day inside a 400-year era: (year of era, month 1..12, day
    of month), from the day of the era [doe] counted from 1 March. *)
Definition doe_fields (doe : Z) : Z * Z * Z :=
  let yoe := (doe - doe / 1460 + doe / 36524 - doe / 146096) / 365 in
  let doy := doe - (365 * yoe + yoe / 4 - yoe / 100) in
  let mp := (5 * doy + 2) / 153 in
  let d := doy - (153 * mp + 2) / 5 + 1 in
  let m := if mp <? 10 then mp + 3 else mp - 9 in
  (yoe, m, d).

(** Day of the era of (year of era, month, day of month). *)
Definition doe_of_fields (yoe m d : Z) : Z :=
  let doy := (153 * (if 2 <? m then m - 3 else m + 9) + 2) / 5 + d - 1 in
  yoe * 365 + yoe / 4 - yoe / 100 + doy.

(** Day number (days since 1970-01-01) to (year, month 1..12, day). *)
Definition civil_from_days (z0 : Z) : Z * Z * Z :=
  let z := z0 + 719468 in
  let era := z / 146097 in
  let doe := z - era * 146097 in
  let '(yoe, m, d) := doe_fields doe in
  let y := yoe + era * 400 in
  ((if m <=? 2 then y + 1 else y), m, d).

(** (year, month 1..12, day) to day number; linear in the day, so a day
    outside the month counts on into the next months, as in ECMAScript. *)
Definition days_from_civil (y0 m d : Z) : Z :=
  let y := if m <=? 2 then y0 - 1 else y0 in
  let era := y / 400 in
  let yoe := y - era * 400 in
  era * 146097 + doe_of_fields yoe m d - 719468.

Definition YearFromDay (z : Z) : Z := fst (fst (civil_from_days z)).
(** 0-based month, as [getMonth]. *)
Definition MonthFromDay (z : Z) : Z := snd (fst (civil_from_days z)) - 1.
Definition DateFromDay (z : Z) : Z := snd (civil_from_days z).

(** [MakeDay(year, month, date)]: month overflow moves into the year, the
    date counts on from the first of the month. *)
Definition MakeDay (year month date : Z) : Z :=
  let ym := year + month / 12 in
  let mn := month mod 12 in
  days_from_civil ym (mn + 1) 1 + date - 1.

Definition MakeDate (day time : Z) : Z := day * msPerDay + time.

(** The [Date] methods used by the views, on local time values. *)
Definition getFullYear (t : Z) : Z := YearFromDay (Day t).
Definition getMonth (t : Z) : Z := MonthFromDay (Day t).
Definition getDate (t : Z) : Z := DateFromDay (Day t).
Definition getDay (t : Z) : Z := (Day t + 4) mod 7.

(** The years the [Date] constructor reads as two-digit years. *)
Definition twoDigitYear (y : Z) : bool := (0 <=? y) && (y <=? 99).

(** [MakeFullYear]: a year 0..99 passed to [new Date(...)] is 1900 + year. *)
Definition MakeFullYear (year : Z) : Z := if twoDigitYear year then 1900 + year else year.

(** [new Date(year, month, day)]: local midnight of that day, the year read
    by [MakeFullYear]. *)
Definition newDate3 (year month day : Z) : Z := MakeDate (MakeDay (MakeFullYear year) month day) 0.

(** [new Date(d.getFullYear(), d.getMonth(), d.getDate())]: the date-only
    copy of [d] the views build before comparing dates. *)
Definition dateOnly (d : Z) : Z := newDate3 (getFullYear d) (getMonth d) (getDate d).

(** [d.setDate(dt)]: same year, month and time of day, day of month [dt]. *)
Definition setDate (t dt : Z) : Z :=
  MakeDate (MakeDay (getFullYear t) (getMonth t) dt) (TimeWithinDay t).

(** Boolean check of the era table, run once over the 146097 days of an era. *)
Definition doe_ok (doe : Z) : bool :=
  let '(yoe, m, d) := doe_fields doe in
  (0 <=? yoe) && (yoe <? 400) && (1 <=? m) && (m <=? 12) &&
  (1 <=? d) && (d <=? 31) && (doe_of_fields yoe m d =? doe).

Fixpoint doe_all_ok (fuel : nat) (k : Z) : bool :=
  match fuel with
  | O => true
  | S f => doe_ok k && doe_all_ok f (k + 1)
  end.

(* ------------------------------------------------------------------ *)
(** ** Strings: [String(n)], [padStart], date keys *)

(** [String(n)] for an integer-valued number: decimal, with a leading
    minus sign when negative. *)
Definition jsString (n : Z) : string := NilZero.string_of_int (Z.to_int n).

Fixpoint repeat_char (k : nat) (c : Ascii.ascii) : string :=
  match k with
  | O => EmptyString
  | S k' => String c (repeat_char k' c)
  end.

(** [s.padStart(n, c)] for a one-character pad string. *)
Definition padStart (n : nat) (c : Ascii.ascii) (s : string) : string :=
  if (n <=? String.length s)%nat then s
  else (repeat_char (n - String.length s) c ++ s)%string.

(** [dateKey] of bases.ts (month 0-based). *)
Definition dateKey (year month day : Z) : string :=
  (jsString year ++ "-" ++ padStart 2 "0"%char (jsString (month + 1)) ++ "-" ++
   padStart 2 "0"%char (jsString day))%string.

(** [formatDate] of [CalendarView.updateEntryDates]. *)
Definition formatDate (date : Z) : string :=
  let year := getFullYear date in
  let month := padStart 2 "0"%char (jsString (getMonth date + 1)) in
  let day := padStart 2 "0"%char (jsString (getDate date)) in
  (jsString year ++ "-" ++ month ++ "-" ++ day)%string.

(** Key of the day-map bucket of the local day numbered [d]. *)
Definition dayKey (d : Z) : string :=
  dateKey (YearFromDay d) (MonthFromDay d) (DateFromDay d).

Definition digit_val (c : Ascii.ascii) : Z := Z.of_nat (Ascii.nat_of_ascii c) - 48.

Definition decode2 (s : string) : Z :=
  match s with
  | String a (String b EmptyString) => 10 * digit_val a + digit_val b
  | _ => 0
  end.

Definition pad2_ok (n : Z) : bool :=
  (decode2 (padStart 2 "0"%char (jsString n)) =? n) &&
  (String.length (padStart 2 "0"%char (jsString n)) =? 2)%nat.

(* ------------------------------------------------------------------ *)
(** ** Range-to-day-map projector ([LinearReactView], [entriesByDate]) *)

(** [LinearEntry]: the record (identified by its file path), its start
    date and its optional end date, as local time values. *)
Record LinearEntry := mkEntry {
  entry : string;
  startDate : Z;
  endDate : option Z;
}.

(** State of the [useMemo] loop: the day-map and the year bounds. *)
Record Projection := mkProjection {
  entriesByDate : gmap string (list LinearEntry);
  minYear : option Z;
  maxYear : option Z;
}.

(** [if (!map.has(key)) map.set(key, []); map.get(key)?.push(entry);] *)
Definition pushEntry (map : gmap string (list LinearEntry)) (key : string)
    (e : LinearEntry) : gmap string (list LinearEntry) :=
  let map := match map !! key with Some _ => map | None => <[key := []]> map end in
  match map !! key with
  | Some l => <[key := l ++ [e]]> map
  | None => map
  end.

(** [while (iter <= end) { ...; iter.setDate(iter.getDate() + 1); }], run
    with at most [fuel] rounds. *)
Fixpoint walk (fuel : nat) (e : LinearEntry) (iter end_ : Z)
    (map : gmap string (list LinearEntry)) : gmap string (list LinearEntry) :=
  match fuel with
  | O => map
  | S f =>
      if iter <=? end_ then
        let key := dateKey (getFullYear iter) (getMonth iter) (getDate iter) in
        walk f e (setDate iter (getDate iter + 1)) end_ (pushEntry map key e)
      else map
  end.

(** Rounds given to the loop: one per day of the range, and one more. *)
Definition loopFuel (start end_ : Z) : nat := S (Z.to_nat (Day end_ - Day start + 1)).

(** One round of [for (const entry of entries)]. *)
Definition projectStep (st : Projection) (e : LinearEntry) : Projection :=
  let start := dateOnly (startDate e) in
  let end_ := match endDate e with
              | Some d => dateOnly d
              | None => start
              end in
  if end_ <? start then st
  else
    let map := walk (loopFuel start end_) e start end_ (entriesByDate st) in
    let sy := getFullYear (startDate e) in
    let minY := match minYear st with None => sy | Some y => Z.min y sy end in
    let maxY := match maxYear st with None => sy | Some y => Z.max y sy end in
    match endDate e with
    | Some d =>
        let ey := getFullYear d in
        mkProjection map (Some (Z.min minY ey)) (Some (Z.max maxY ey))
    | None => mkProjection map (Some minY) (Some maxY)
    end.

Definition project (entries : list LinearEntry) : Projection :=
  fold_left projectStep entries (mkProjection ∅ None None).

(** [yearList]: [for (let y = resolvedMin; y <= resolvedMax; y++)]. *)
Definition years (p : Projection) (thisYear : Z) : list Z :=
  let resolvedMin := match minYear p with Some y => y | None => thisYear end in
  let resolvedMax := match maxYear p with Some y => y | None => resolvedMin end in
  map (fun i => resolvedMin + Z.of_nat i) (seq 0 (Z.to_nat (resolvedMax - resolvedMin + 1))).

(** The days [d, d+1, ..., d+n-1]. *)
Fixpoint dayRange (d : Z) (n : nat) : list Z :=
  match n with
  | O => []
  | S n' => d :: dayRange (d + 1) n'
  end.

(** The local days from the start day to the end day of an entry
    (the start day alone without end date; none when the end is earlier). *)
Definition occupiedDays (e : LinearEntry) : list Z :=
  let s := Day (startDate e) in
  let t := match endDate e with Some d => Day d | None => s end in
  dayRange s (Z.to_nat (t - s + 1)).

Definition occupies (k : string) (e : LinearEntry) : bool :=
  existsb (fun d => String.eqb (dayKey d) k) (occupiedDays e).

(** The date-only end of an entry is before its date-only start. *)
Definition skipped (e : LinearEntry) : bool :=
  match endDate e with
  | Some d => Day d <? Day (startDate e)
  | None => false
  end.

(** The test [if (end < start) continue;] of the loop, on the dates it
    rebuilds with [new Date(y, m, d)]. *)
Definition codeSkips (e : LinearEntry) : bool :=
  let start := dateOnly (startDate e) in
  let end_ := match endDate e with Some d => dateOnly d | None => start end in
  end_ <? start.

(* ------------------------------------------------------------------ *)
(** ** Year navigation ([currentYear], [goPrevYear], [goNextYear]) *)

(** [Array.prototype.indexOf] on a list of years. *)
Fixpoint indexOf (l : list Z) (x : Z) : Z :=
  match l with
  | [] => -1
  | y :: l' => if y =? x then 0 else
                 let i := indexOf l' x in if i =? -1 then -1 else i + 1
  end.

(** [years[i]]; the views only read indices inside the list. *)
Definition at_index (l : list Z) (i : Z) (dflt : Z) : Z :=
  match nth_error l (Z.to_nat i) with Some y => y | None => dflt end.

(** Initial value of the [currentYear] state. *)
Definition initialYear (yrs : list Z) (thisYear : Z) : Z :=
  if existsb (Z.eqb thisYear) yrs then thisYear
  else match yrs with y :: _ => y | [] => thisYear end.

Definition goPrevYear (yrs : list Z) (currentYear : Z) : Z :=
  let idx := indexOf yrs currentYear in
  if 0 <? idx then at_index yrs (idx - 1) currentYear else currentYear.

Definition goNextYear (yrs : list Z) (currentYear : Z) : Z :=
  let idx := indexOf yrs currentYear in
  if negb (idx =? -1) && (idx <? Z.of_nat (length yrs) - 1)
  then at_index yrs (idx + 1) currentYear else currentYear.

(** Years an entry contributes to the bounds: none when the loop skips it,
    else the year of its start date and, when present, of its end date. *)
Definition contribYears (e : LinearEntry) : list Z :=
  if codeSkips e then []
  else getFullYear (startDate e) ::
       match endDate e with Some d => [getFullYear d] | None => [] end.

(* ------------------------------------------------------------------ *)
(** ** Month grid ([CalendarReactView]) *)

(** [CalendarEntry] has the fields of [LinearEntry]. *)
Abbreviation CalendarEntry := LinearEntry (only parsing).

(** The widget event built for an entry ([events] mapping). *)
Record WidgetEvent := mkWidgetEvent {
  evId : string;
  evStart : Z;
  evEnd : option Z;
  evOriginalEndDate : option Z;
}.

Definition adjustedEndDate (calEntry : CalendarEntry) : option Z :=
  match endDate calEntry with
  | None => None
  | Some e =>
      let startDateOnly := dateOnly (startDate calEntry) in
      let endDateOnly := dateOnly e in
      if startDateOnly =? endDateOnly then None
      else Some (setDate e (getDate e + 1))
  end.

Definition toWidgetEvent (calEntry : CalendarEntry) : WidgetEvent :=
  mkWidgetEvent (entry calEntry) (startDate calEntry) (adjustedEndDate calEntry)
    (endDate calEntry).

(** Outcome of [handleEventDrop]: revert the drop, or call [onEventDrop]
    with the new start and the end to save. *)
Inductive DropOutcome :=
  | Revert
  | CallOnEventDrop (newStart : Z) (actualEndDate : option Z).

Definition handleEventDrop (hasOnEventDrop : bool) (originalEndDate : option Z)
    (newStart newEnd : option Z) : DropOutcome :=
  if negb hasOnEventDrop then Revert
  else
    match newStart with
    | None => Revert
    | Some ns =>
        let actualEndDate :=
          match originalEndDate with
          | Some _ =>
              match newEnd with
              | Some ne => Some (setDate ne (getDate ne - 1))
              | None => Some ns
              end
          | None => None
          end in
        CallOnEventDrop ns actualEndDate
    end.

(* ------------------------------------------------------------------ *)
(** ** Front-matter write-back ([CalendarView.updateEntryDates]) *)

(** Truthiness of a possibly [null] value. *)
Definition isSome {A} (o : option A) : bool := match o with Some _ => true | None => false end.

Definition startsWith (prefix s : string) : bool := String.prefix prefix s.

(** [s.slice(5)]. *)
Definition slice5 (s : string) : string := String.substring 5 (String.length s - 5) s.

(** Front matter of a note: property name to stored value. *)
Abbreviation FrontMatter := (gmap string string).

Definition updateEntryDates (startDateProp endDateProp : option string)
    (frontmatter : FrontMatter) (newStart : Z) (newEnd : option Z) : FrontMatter :=
  match startDateProp with
  | None => frontmatter
  | Some startPropName =>
      let extractedStartProp :=
        if startsWith "note." startPropName then Some (slice5 startPropName) else None in
      let extractedEndProp :=
        match endDateProp with
        | Some endPropName => if startsWith "note." endPropName then Some (slice5 endPropName) else None
        | None => None
        end in
      let shouldUpdate :=
        isSome extractedStartProp && (negb (isSome endDateProp) || isSome extractedEndProp) in
      if negb shouldUpdate then frontmatter
      else
        match extractedStartProp with
        | None => frontmatter
        | Some sk =>
            let frontmatter := <[sk := formatDate newStart]> frontmatter in
            (* [if (this.endDateProp && newEnd && extractedEndProp)] *)
            match endDateProp, newEnd, extractedEndProp with
            | Some _, Some ne, Some ek =>
                if String.eqb ek "" then frontmatter
                else <[ek := formatDate ne]> frontmatter
            | _, _, _ => frontmatter
            end
        end
  end.

(** A drop on the month grid of an entry, wired to [updateEntryDates]
    through [onEventDrop]. *)
Definition dropAndPersist (startDateProp endDateProp : option string)
    (frontmatter : FrontMatter) (calEntry : CalendarEntry)
    (newStart newEnd : option Z) : FrontMatter :=
  match handleEventDrop true (evOriginalEndDate (toWidgetEvent calEntry)) newStart newEnd with
  | Revert => frontmatter
  | CallOnEventDrop ns ne => updateEntryDates startDateProp endDateProp frontmatter ns ne
  end.

(* ------------------------------------------------------------------ *)
(** ** Option normalisation ([getOverlayOpacity], [getBooleanConfig]) *)

(** JavaScript numbers: finite values as exact rationals (IEEE rounding of
    the final division is not modelled), the two infinities and [NaN]. *)
Inductive JsNumber :=
  | Fin (q : Q)
  | PosInf
  | NegInf
  | NaN.

(** A value returned by [this.config.get(key)]. *)
Inductive ConfigValue :=
  | CNumber (n : JsNumber)
  | CString (s : string)
  | CBoolean (b : bool)
  | CNull
  | COther.

(** [Math.min(a, b)] and [Math.max(a, b)]. *)
Definition jsMin (a b : JsNumber) : JsNumber :=
  match a, b with
  | NaN, _ | _, NaN => NaN
  | NegInf, _ | _, NegInf => NegInf
  | PosInf, x | x, PosInf => x
  | Fin x, Fin y => Fin (Qmin x y)
  end.

Definition jsMax (a b : JsNumber) : JsNumber :=
  match a, b with
  | NaN, _ | _, NaN => NaN
  | PosInf, _ | _, PosInf => PosInf
  | NegInf, x | x, NegInf => x
  | Fin x, Fin y => Fin (Qmax x y)
  end.

(** [x / 100]. *)
Definition jsDiv100 (a : JsNumber) : JsNumber :=
  match a with
  | Fin x => Fin (x / 100)
  | other => other
  end.

Definition isNaN (a : JsNumber) : bool := match a with NaN => true | _ => false end.

(** [getOverlayOpacity] of [CalendarView] and of [LinearView] (the two are
    the same code), for a given string-to-number conversion [toNumber]
    ([Number(s)]). [None] is [undefined]. *)
Definition getOverlayOpacity (toNumber : string -> JsNumber) (rawValue : ConfigValue) : JsNumber :=
  let numericValue :=
    match rawValue with
    | CNumber n => Some n
    | CString s => Some (toNumber s)
    | _ => None
    end in
  match numericValue with
  | None => Fin (6 # 10)
  | Some n =>
      if isNaN n then Fin (6 # 10)
      else
        let clamped := jsMax (Fin 0) (jsMin (Fin 100) n) in
        jsDiv100 clamped
  end.

(** [Number(s)] on decimal literals: surrounding blanks, an optional sign,
    digits with an optional fraction, or [Infinity]; the empty string is 0.
    Other syntaxes (exponents, hexadecimal) are not covered: they give [NaN]
    here. *)
Definition is_blank (c : Ascii.ascii) : bool :=
  match c with " " | "009" | "010" | "013" => true | _ => false end%char.

Fixpoint trim_left (s : string) : string :=
  match s with
  | String c s' => if is_blank c then trim_left s' else s
  | EmptyString => EmptyString
  end.

Fixpoint trim_right (s : string) : string :=
  match s with
  | String c s' =>
      let r := trim_right s' in
      if is_blank c && String.eqb r "" then EmptyString else String c r
  | EmptyString => EmptyString
  end.

Definition trim (s : string) : string := trim_right (trim_left s).

Definition is_digit (c : Ascii.ascii) : bool :=
  (48 <=? Ascii.nat_of_ascii c)%nat && (Ascii.nat_of_ascii c <=? 57)%nat.

Fixpoint read_digits (s : string) (acc : Z) (n : nat) : Z * nat * string :=
  match s with
  | String c s' => if is_digit c then read_digits s' (10 * acc + digit_val c) (S n) else (acc, n, s)
  | EmptyString => (acc, n, s)
  end.

Definition parse_unsigned (s : string) : JsNumber :=
  if String.eqb s "Infinity" then PosInf
  else
    let '(ip, n1, r1) := read_digits s 0 0 in
    match r1 with
    | EmptyString => if (n1 =? 0)%nat then NaN else Fin (inject_Z ip)
    | String "." r2 =>
        let '(fp, n2, r3) := read_digits r2 0 0 in
        match r3 with
        | EmptyString =>
            if (n1 + n2 =? 0)%nat then NaN
            else Fin (inject_Z ip + Qmake fp (Pos.of_nat (10 ^ n2)))
        | _ => NaN
        end
    | _ => NaN
    end%char.

Definition StringToNumber (s : string) : JsNumber :=
  match trim s with
  | EmptyString => Fin 0
  | String "-" r =>
      match parse_unsigned r with
      | Fin q => Fin (- q) | PosInf => NegInf | other => other
      end
  | String "+" r => parse_unsigned r
  | t => parse_unsigned t
  end%char.

(** [getBooleanConfig(key)] with the default fallback [false]. *)
Definition getBooleanConfig (value : ConfigValue) : bool :=
  match value with CBoolean b => b | _ => false end.

(* ------------------------------------------------------------------ *)
(** ** Linear year grid: aligned layout and weekend flag *)

(** [daysInMonth(year, month)] = [new Date(year, month + 1, 0).getDate()]. *)
Definition daysInMonth (year month : Z) : Z := getDate (newDate3 year (month + 1) 0).

(** [Math.ceil] on a rational. *)
Definition mathCeil (q : Q) : Z := Qceiling q.

Record MonthSlot := mkMonthSlot {
  msDays : Z;
  msFirstWeekday : Z;
  msTotalSlots : Z;
}.

Definition monthSlot (currentYear monthIndex : Z) : MonthSlot :=
  let days := daysInMonth currentYear monthIndex in
  let firstWeekday := getDay (newDate3 currentYear monthIndex 1) in
  let totalSlots := mathCeil (inject_Z (firstWeekday + days) / inject_Z 7) * 7 in
  mkMonthSlot days firstWeekday totalSlots.

Definition monthIndices : list Z := map Z.of_nat (seq 0 12).

Definition monthSlots (currentYear : Z) : list MonthSlot :=
  map (monthSlot currentYear) monthIndices.

Definition maxSlots (currentYear : Z) : Z :=
  fold_left (fun mx m => Z.max mx (msTotalSlots m)) (monthSlots currentYear) 0.

(** A rendered slot: padding, or [renderCell(year, month, day, valid)]. *)
Inductive Slot :=
  | Pad
  | Cell (year month day : Z) (valid : bool).

Definition monthRow (currentYear monthIndex mx : Z) (meta : MonthSlot) : list Slot :=
  map (fun i =>
         let idx := Z.of_nat i in
         if msTotalSlots meta <=? idx then Pad
         else
           let dayNum := idx - msFirstWeekday meta + 1 in
           let valid := (1 <=? dayNum) && (dayNum <=? msDays meta) in
           Cell currentYear monthIndex dayNum valid)
      (seq 0 (Z.to_nat mx)).

(** Rows of [renderAlignedYear]: one per month, [maxSlots] slots each. *)
Definition renderAlignedYear (currentYear : Z) : list (list Slot) :=
  let mx := maxSlots currentYear in
  map (fun monthIndex => monthRow currentYear monthIndex mx (monthSlot currentYear monthIndex))
      monthIndices.

(** Flags of [LinearView.loadConfig]. *)
Record LinearFlags := mkLinearFlags {
  alignWeekdays : bool;
  highlightWeekends : bool;
}.

Definition loadFlags (alignRaw highlightRaw : ConfigValue) : LinearFlags :=
  let align := getBooleanConfig alignRaw in
  mkLinearFlags align (if align then getBooleanConfig highlightRaw else false).

(** Condition under which [renderCell] runs the weekday computation. *)
Definition weekendCheckRuns (fl : LinearFlags) (valid : bool) : bool :=
  highlightWeekends fl && negb (alignWeekdays fl) && valid.

(** [isWeekend] of [renderCell]. *)
Definition isWeekend (fl : LinearFlags) (year month day : Z) (valid : bool) : bool :=
  if weekendCheckRuns fl valid then
    let dow := getDay (newDate3 year month day) in (dow =? 0) || (dow =? 6)
  else false.

(* ------------------------------------------------------------------ *)
(** ** Further numeric options ([getDayNumberSize], [getDayCellHeight],
    [getChipScale]; the same code in [CalendarView] and [LinearView]) *)

(** [typeof rawValue === "number" ? rawValue
     : typeof rawValue === "string" ? Number(rawValue) : undefined]. *)
Definition numericConfigValue (toNumber : string -> JsNumber) (rawValue : ConfigValue)
    : option JsNumber :=
  match rawValue with
  | CNumber n => Some n
  | CString s => Some (toNumber s)
  | _ => None
  end.

Definition getDayNumberSize (toNumber : string -> JsNumber) (rawValue : ConfigValue) : JsNumber :=
  match numericConfigValue toNumber rawValue with
  | None => Fin 18
  | Some n => if isNaN n then Fin 18 else jsMax (Fin 12) (jsMin (Fin 40) n)
  end.

Definition getDayCellHeight (toNumber : string -> JsNumber) (rawValue : ConfigValue) : JsNumber :=
  match numericConfigValue toNumber rawValue with
  | None => Fin 120
  | Some n => if isNaN n then Fin 120 else jsMax (Fin 80) (jsMin (Fin 220) n)
  end.

Definition getChipScale (toNumber : string -> JsNumber) (rawValue : ConfigValue) : JsNumber :=
  match numericConfigValue toNumber rawValue with
  | None => Fin 1
  | Some n =>
      if isNaN n then Fin 1
      else let clamped := jsMax (Fin 60) (jsMin (Fin 160) n) in jsDiv100 clamped
  end.

(* ------------------------------------------------------------------ *)
(** ** First day of the week ([CalendarView.loadConfig]) *)

(** The object literal [dayNameToNumber]. *)
Definition dayNameToNumber : list (string * Z) :=
  [("sunday", 0); ("monday", 1); ("tuesday", 2); ("wednesday", 3);
   ("thursday", 4); ("friday", 5); ("saturday", 6)].

(** Property names every object literal inherits from [Object.prototype]. *)
Definition objectPrototypeKeys : list string :=
  ["constructor"; "__defineGetter__"; "__defineSetter__"; "hasOwnProperty";
   "__lookupGetter__"; "__lookupSetter__"; "isPrototypeOf";
   "propertyIsEnumerable"; "toString"; "valueOf"; "__proto__"; "toLocaleString"].

(** [obj[key]] on [dayNameToNumber]: an own number, an inherited member
    (a function or the prototype: never nullish), or [undefined]. *)
Inductive PropLookup :=
  | OwnNumber (n : Z)
  | Inherited (name : string)
  | Undefined.

Fixpoint assocLookup (l : list (string * Z)) (k : string) : option Z :=
  match l with
  | [] => None
  | (k', v) :: l' => if String.eqb k' k then Some v else assocLookup l' k
  end.

Definition lookupDayName (key : string) : PropLookup :=
  match assocLookup dayNameToNumber key with
  | Some n => OwnNumber n
  | None => if existsb (String.eqb key) objectPrototypeKeys then Inherited key else Undefined
  end.

(** JavaScript truthiness of a configuration value. *)
Definition truthy (v : ConfigValue) : bool :=
  match v with
  | CNumber (Fin q) => negb (Qeq_bool q 0)
  | CNumber NaN => false
  | CNumber _ => true
  | CString s => negb (String.eqb s "")
  | CBoolean b => b
  | CNull => false
  | COther => true
  end.

(** The value [weekStartDay] is set to: a number, or the inherited member. *)
Inductive WeekStart :=
  | WNum (n : Z)
  | WInherited (name : string).

(** [weekStartDayValue ? (dayNameToNumber[weekStartDayValue] ?? 1) : 1];
    [toKey] is the property key of a truthy value that is not a string. *)
Definition weekStartDay (toKey : ConfigValue -> string) (weekStartDayValue : ConfigValue) : WeekStart :=
  if truthy weekStartDayValue then
    let key := match weekStartDayValue with CString s => s | v => toKey v end in
    match lookupDayName key with
    | OwnNumber n => WNum n
    | Inherited name => WInherited name
    | Undefined => WNum 1
    end
  else WNum 1.

(* ------------------------------------------------------------------ *)
(** ** Editability of the month grid ([CalendarView.isEditable]) *)

Section Editable.
(** [parsePropertyId(id).type], from the Obsidian API. *)
Variable propertyType : string -> string.

Definition isEditable (startDateProp endDateProp : option string) : bool :=
  match startDateProp with
  | None => false
  | Some sp =>
      if negb (String.eqb (propertyType sp) "note") then false
      else
        match endDateProp with
        | None => true
        | Some ep => String.eqb (propertyType ep) "note"
        end
  end.
End Editable.

(** A [parsePropertyId(id).type] for ids of the form "note.x", "file.x" and
    "formula.x". *)
Definition noteType (s : string) : string :=
  if startsWith "note." s then "note" else if startsWith "file." s then "file" else "formula".

(* ------------------------------------------------------------------ *)
(** ** Gregorian month lengths (reference) *)

(** The Gregorian leap-year rule and month lengths (month 0-based), the
    reference [daysInMonth] is compared with. *)
Definition isLeapYear (y : Z) : bool :=
  ((y mod 4 =? 0) && negb (y mod 100 =? 0)) || (y mod 400 =? 0).

Definition gregorianMonthLength (y m : Z) : Z :=
  if m =? 1 then (if isLeapYear y then 29 else 28)
  else if (m =? 3) || (m =? 5) || (m =? 8) || (m =? 10) then 30
  else 31.

(** Check of one month of a year: the next month starts right after it,
    day 0 of the next month is its last day, and each of its days converts
    back to its own (year, month, day). *)
Definition month_ok (y m : Z) : bool :=
  let len := gregorianMonthLength y m in
  (MakeDay y (m + 1) 1 =? MakeDay y m 1 + len) &&
  (DateFromDay (MakeDay y (m + 1) 0) =? len) &&
  forallb (fun d =>
             let '(y', m', d') := civil_from_days (MakeDay y m d) in
             (y' =? y) && (m' =? m + 1) && (d' =? d))
          (map Z.of_nat (seq 1 (Z.to_nat len))).

(* ------------------------------------------------------------------ *)
(** ** Day cells ([renderCell]) and the standard year layout *)

(** Day cells of one month in [renderStandardYear]: 31 cells, the ones past
    the month's length out of month. *)
Definition standardRow (currentYear monthIndex : Z) : list Slot :=
  let days := daysInMonth currentYear monthIndex in
  map (fun dayIndex => Cell currentYear monthIndex (Z.of_nat dayIndex + 1)
                            (Z.of_nat dayIndex + 1 <=? days))
      (seq 0 31).

Definition renderStandardYear (currentYear : Z) : list (list Slot) :=
  map (standardRow currentYear) monthIndices.

(* ------------------------------------------------------------------ *)
(** ** Year navigation buttons *)

(** [disabled] of the two toolbar buttons. *)
Definition prevDisabled (yrs : list Z) (currentYear : Z) : bool :=
  indexOf yrs currentYear <=? 0.

Definition nextDisabled (yrs : list Z) (currentYear : Z) : bool :=
  (indexOf yrs currentYear =? -1) || (indexOf yrs currentYear =? Z.of_nat (length yrs) - 1).

(* ------------------------------------------------------------------ *)
(** ** Image references (src/src/utils/entry-images.ts) *)

(** White space removed by [String.prototype.trim], on ASCII text. *)
Definition js_ws (c : Ascii.ascii) : bool :=
  match Ascii.nat_of_ascii c with 9 | 10 | 11 | 12 | 13 | 32 => true | _ => false end%nat.

Fixpoint trimStart (s : string) : string :=
  match s with
  | String c s' => if js_ws c then trimStart s' else s
  | EmptyString => EmptyString
  end.

Fixpoint trimEnd (s : string) : string :=
  match s with
  | String c s' =>
      let r := trimEnd s' in
      if js_ws c && String.eqb r "" then EmptyString else String c r
  | EmptyString => EmptyString
  end.

Definition jsTrim (s : string) : string := trimEnd (trimStart s).

Fixpoint all_chars (p : Ascii.ascii -> bool) (s : string) : bool :=
  match s with
  | String c s' => p c && all_chars p s'
  | EmptyString => true
  end.

(** [.] of a regular expression: any character but a line terminator. *)
Definition regex_dot (c : Ascii.ascii) : bool :=
  negb (Ascii.eqb c "010"%char) && negb (Ascii.eqb c "013"%char).

(** [value.match(/^!?\[\[(.+?)\]\]$/)], its group. *)
Definition wikilinkMatch (value : string) : option string :=
  let rest := match value with String "!" r => r | _ => value end in
  match rest with
  | String "[" (String "[" inner) =>
      let n := String.length inner in
      if (3 <=? n)%nat && String.eqb (String.substring (n - 2) 2 inner) "]]" then
        let g := String.substring 0 (n - 2) inner in
        if all_chars regex_dot g then Some g else None
      else None
  | _ => None
  end%char.

(** The text after the first [\]]: [[^\]]*] then [\]]. *)
Fixpoint after_bracket (s : string) : option string :=
  match s with
  | EmptyString => None
  | String c s' => if Ascii.eqb c "]"%char then Some s' else after_bracket s'
  end.

(** [value.match(/^!\[[^\]]*]\((.+?)\)$/)], its group. *)
Definition mdImageMatch (value : string) : option string :=
  match value with
  | String "!" (String "[" r) =>
      match after_bracket r with
      | Some (String "(" inner) =>
          let n := String.length inner in
          if (2 <=? n)%nat && String.eqb (String.substring (n - 1) 1 inner) ")" then
            let g := String.substring 0 (n - 1) inner in
            if all_chars regex_dot g then Some g else None
          else None
      | _ => None
      end
  | _ => None
  end%char.

(** [value.slice(0, value.indexOf(c))] when [c] occurs, else [value]. *)
Fixpoint cut_at (c : Ascii.ascii) (s : string) : string :=
  match s with
  | EmptyString => EmptyString
  | String x s' => if Ascii.eqb x c then EmptyString else String x (cut_at c s')
  end.

Definition is_quote (c : Ascii.ascii) : bool :=
  Ascii.eqb c "039"%char || Ascii.eqb c "034"%char.

(** [value.replace(/^['"]|['"]$/g, "")]: a leading quote, then a trailing
    quote of what is left. *)
Definition strip_quotes (s : string) : string :=
  let s1 := match s with
            | String c r => if is_quote c then r else s
            | EmptyString => EmptyString
            end in
  let n := String.length s1 in
  match String.get (n - 1) s1 with
  | Some c => if (1 <=? n)%nat && is_quote c then String.substring 0 (n - 1) s1 else s1
  | None => s1
  end.

Definition sanitizeReference (reference : string) : option string :=
  let value := jsTrim reference in
  if String.eqb value "" then None
  else
    let value := match wikilinkMatch value with Some g => g | None => value end in
    let value := match mdImageMatch value with Some g => g | None => value end in
    let value := cut_at "|"%char value in
    let value := cut_at "#"%char value in
    let value := jsTrim (strip_quotes value) in
    if String.eqb value "" then None else Some value.

(** A character that is neither "|" nor "#". *)
Definition no_pipe_hash (c : Ascii.ascii) : bool :=
  negb (Ascii.eqb c "|") && negb (Ascii.eqb c "#").

(* ------------------------------------------------------------------ *)
(** ** Concrete inputs *)

(** Concrete entry of the spec: 2025-03-30 09:00 to 2025-04-02 17:30. *)
Definition tripEntry : LinearEntry :=
  mkEntry "trip.md" (newDate3 2025 2 30 + 9 * 3600000)
    (Some (newDate3 2025 3 2 + 17 * 3600000 + 30 * 60000)).

(** A date at local midnight of (year, month, day), the year taken as it
    is (as [setFullYear] or an ISO date string such as "0050-03-10" give). *)
Definition localMidnight (year month day : Z) : Z := MakeDate (MakeDay year month day) 0.

(** An entry on 0050-03-10, without end date. *)
Definition oldEntry : LinearEntry := mkEntry "old.md" (localMidnight 50 2 10) None.

(** An entry from 1950-06-01 to 0050-07-01: its end is before its start. *)
Definition reversedEntry : LinearEntry :=
  mkEntry "rev.md" (localMidnight 1950 5 1) (Some (localMidnight 50 6 1)).

(** An entry from 0050-03-10 to 1950-03-10. *)
Definition longEntry : LinearEntry :=
  mkEntry "long.md" (localMidnight 50 2 10) (Some (localMidnight 1950 2 10)).

(** Bounds folded the way the loop updates them. *)
Definition foldMin (o : option Z) (y : Z) : option Z :=
  Some (match o with None => y | Some x => Z.min x y end).
Definition foldMax (o : option Z) (y : Z) : option Z :=
  Some (match o with None => y | Some x => Z.max x y end).

(** Entries of the spec example: start dates only in 2024, and one entry
    from 2023-12-30 to 2024-01-02. *)
Definition spanEntries : list LinearEntry :=
  [mkEntry "a.md" (newDate3 2024 4 1) None;
   mkEntry "b.md" (newDate3 2024 6 15 + 3600000) None;
   mkEntry "c.md" (newDate3 2023 11 30) (Some (newDate3 2024 0 2))].

(* ------------------------------------------------------------------ *)
(** ** Properties of the calendar and of the projector *)

Lemma doe_all_ok_spec fuel k :
  doe_all_ok fuel k = true -> forall j, k <= j < k + Z.of_nat fuel -> doe_ok j = true.
Proof.
  revert k; induction fuel as [|f IH]; simpl; intros k H j Hj; [lia|].
  apply andb_true_iff in H as [H1 H2].
  destruct (Z.eq_dec j k) as [->|Hne]; [exact H1|].
  apply (IH (k + 1)); [exact H2|lia].
Qed.

Lemma doe_table : doe_all_ok (Z.to_nat 146097) 0 = true.
Proof. vm_compute. reflexivity. Qed.

Lemma doe_ok_range doe : 0 <= doe < 146097 -> doe_ok doe = true.
Proof. intros H. apply (doe_all_ok_spec _ 0 doe_table). rewrite Z2Nat.id; lia. Qed.

Lemma civil_from_days_fields z :
  exists era doe yoe m d,
    z + 719468 = era * 146097 + doe /\ 0 <= doe < 146097 /\
    0 <= yoe < 400 /\ 1 <= m <= 12 /\ 1 <= d <= 31 /\
    doe_of_fields yoe m d = doe /\
    civil_from_days z = ((if m <=? 2 then yoe + era * 400 + 1 else yoe + era * 400), m, d).
Proof.
  unfold civil_from_days.
  set (era := (z + 719468) / 146097).
  assert (Hm : 0 <= z + 719468 - era * 146097 < 146097).
  { pose proof (Z.mod_pos_bound (z + 719468) 146097 ltac:(lia)).
    rewrite Z.mod_eq in H by lia. subst era. lia. }
  set (doe := z + 719468 - era * 146097) in *.
  pose proof (doe_ok_range doe Hm) as Hok. unfold doe_ok in Hok.
  destruct (doe_fields doe) as [[yoe m] d] eqn:Hf.
  repeat rewrite andb_true_iff in Hok. rewrite !Z.leb_le, !Z.ltb_lt, Z.eqb_eq in Hok.
  exists era, doe, yoe, m, d. repeat split; try lia.
Qed.

Lemma doe_of_fields_date yoe m d : doe_of_fields yoe m 1 + d - 1 = doe_of_fields yoe m d.
Proof. unfold doe_of_fields. lia. Qed.

(** The calendar fields of a day number give that day number back. *)
Lemma MakeDay_fields z : MakeDay (YearFromDay z) (MonthFromDay z) (DateFromDay z) = z.
Proof.
  destruct (civil_from_days_fields z) as (era & doe & yoe & m & d & Hz & Hdoe & Hy & Hmo & Hd & Hdf & Hc).
  unfold YearFromDay, MonthFromDay, DateFromDay, MakeDay. rewrite Hc. simpl.
  rewrite (Z.div_small (m - 1) 12) by lia. rewrite (Z.mod_small (m - 1) 12) by lia.
  replace (m - 1 + 1) with m by lia.
  unfold days_from_civil.
  replace ((if m <=? 2 then yoe + era * 400 + 1 else yoe + era * 400) + 0)
    with (if m <=? 2 then yoe + era * 400 + 1 else yoe + era * 400)
    by (destruct (m <=? 2); lia).
  assert (Hy0 : (if m <=? 2 then (if m <=? 2 then yoe + era * 400 + 1 else yoe + era * 400) - 1
                 else (if m <=? 2 then yoe + era * 400 + 1 else yoe + era * 400)) = yoe + era * 400)
    by (destruct (m <=? 2); lia).
  rewrite Hy0.
  rewrite Z.div_add by lia. rewrite (Z.div_small yoe 400) by lia.
  replace (yoe + era * 400 - (0 + era) * 400) with yoe by lia.
  pose proof (doe_of_fields_date yoe m d). lia.
Qed.

Lemma MonthFromDay_range z : 0 <= MonthFromDay z <= 11.
Proof.
  destruct (civil_from_days_fields z) as (era & doe & yoe & m & d & _ & _ & _ & Hmo & _ & _ & Hc).
  unfold MonthFromDay. rewrite Hc. simpl. lia.
Qed.

Lemma DateFromDay_range z : 1 <= DateFromDay z <= 31.
Proof.
  destruct (civil_from_days_fields z) as (era & doe & yoe & m & d & _ & _ & _ & _ & Hd & _ & Hc).
  unfold DateFromDay. rewrite Hc. simpl. lia.
Qed.

(** The date-only copy of [d] is local midnight of the day of [d] when
    the year of [d] is not a two-digit year. *)
Lemma dateOnly_midnight t : twoDigitYear (getFullYear t) = false -> dateOnly t = Day t * msPerDay.
Proof.
  unfold dateOnly, newDate3, MakeFullYear, MakeDate, getFullYear, getMonth, getDate.
  intros H. rewrite H, MakeDay_fields. lia.
Qed.

(** The date-only copy depends on the day alone. *)
Lemma dateOnly_Day a b : Day a = Day b -> dateOnly a = dateOnly b.
Proof. intros H. unfold dateOnly, getFullYear, getMonth, getDate. by rewrite H. Qed.

Lemma MakeDay_date y m d n : MakeDay y m (d + n) = MakeDay y m d + n.
Proof. unfold MakeDay. lia. Qed.

Lemma MakeDay_get t : MakeDay (getFullYear t) (getMonth t) (getDate t) = Day t.
Proof. apply MakeDay_fields. Qed.

Lemma MakeDate_Day t : MakeDate (Day t) (TimeWithinDay t) = t.
Proof.
  unfold MakeDate, Day, TimeWithinDay.
  pose proof (Z.div_mod t msPerDay ltac:(discriminate)). lia.
Qed.

(** [d.setDate(d.getDate() + n)] moves [d] by [n] whole days. *)
Lemma setDate_shift t n : setDate t (getDate t + n) = t + n * msPerDay.
Proof.
  unfold setDate. rewrite MakeDay_date, MakeDay_get.
  pose proof (MakeDate_Day t) as H. unfold MakeDate in *. nia.
Qed.

Lemma Day_midnight d : Day (d * msPerDay) = d.
Proof. unfold Day. apply Z.div_mul. unfold msPerDay. lia. Qed.

Lemma pad2_table : forallb pad2_ok (map Z.of_nat (seq 1 31)) = true.
Proof. vm_compute. reflexivity. Qed.

Lemma pad2_ok_range n : 1 <= n <= 31 -> pad2_ok n = true.
Proof.
  intros Hn. pose proof pad2_table as H. rewrite forallb_forall in H.
  apply H. apply in_map_iff. exists (Z.to_nat n). split; [apply Z2Nat.id; lia|].
  apply in_seq. lia.
Qed.

Lemma pad2_length n : 1 <= n <= 31 -> String.length (padStart 2 "0"%char (jsString n)) = 2%nat.
Proof.
  intros Hn. pose proof (pad2_ok_range n Hn) as H. unfold pad2_ok in H.
  apply andb_true_iff in H as [_ H]. by apply Nat.eqb_eq.
Qed.

Lemma pad2_inj a b : 1 <= a <= 31 -> 1 <= b <= 31 ->
  padStart 2 "0"%char (jsString a) = padStart 2 "0"%char (jsString b) -> a = b.
Proof.
  intros Ha Hb Heq. pose proof (pad2_ok_range a Ha) as HA. pose proof (pad2_ok_range b Hb) as HB.
  unfold pad2_ok in HA, HB. apply andb_true_iff in HA as [HA _]. apply andb_true_iff in HB as [HB _].
  apply Z.eqb_eq in HA, HB. rewrite Heq in HA. lia.
Qed.

Lemma to_int_not_nil n : Z.to_int n <> Decimal.Pos Decimal.Nil /\ Z.to_int n <> Decimal.Neg Decimal.Nil.
Proof.
  destruct n as [|p|p]; simpl; split; try discriminate;
    intros [= H]; exact (Unsigned.to_uint_nonnil p H).
Qed.

Lemma jsString_inj a b : jsString a = jsString b -> a = b.
Proof.
  unfold jsString. intros H.
  destruct (to_int_not_nil a) as [Ha1 Ha2]. destruct (to_int_not_nil b) as [Hb1 Hb2].
  pose proof (NilZero.isi _ Ha1 Ha2) as Ia. pose proof (NilZero.isi _ Hb1 Hb2) as Ib.
  rewrite H, Ib in Ia. injection Ia as Ia.
  rewrite <- (DecimalZ.of_to a), <- (DecimalZ.of_to b), Ia. reflexivity.
Qed.

Lemma string_length_app s t : String.length (s ++ t) = (String.length s + String.length t)%nat.
Proof. induction s; simpl; auto. Qed.

Lemma string_app_inj s1 s2 t1 t2 :
  String.length t1 = String.length t2 -> (s1 ++ t1)%string = (s2 ++ t2)%string ->
  s1 = s2 /\ t1 = t2.
Proof.
  revert s2. induction s1 as [|c s1 IH]; intros [|c' s2] Hl H; simpl in H.
  - auto.
  - rewrite H in Hl. simpl in Hl. rewrite string_length_app in Hl. lia.
  - rewrite <- H in Hl. simpl in Hl. rewrite string_length_app in Hl. lia.
  - injection H as -> H. destruct (IH s2 Hl H) as [-> ->]. auto.
Qed.

(** [dateKey] is one-to-one on calendar fields. *)
Lemma dateKey_inj y m d y' m' d' :
  0 <= m <= 11 -> 1 <= d <= 31 -> 0 <= m' <= 11 -> 1 <= d' <= 31 ->
  dateKey y m d = dateKey y' m' d' -> y = y' /\ m = m' /\ d = d'.
Proof.
  intros Hm Hd Hm' Hd' H. unfold dateKey in H.
  set (M := padStart 2 "0"%char (jsString (m + 1))) in H.
  set (M' := padStart 2 "0"%char (jsString (m' + 1))) in H.
  set (D := padStart 2 "0"%char (jsString d)) in H.
  set (D' := padStart 2 "0"%char (jsString d')) in H.
  assert (LM : String.length M = 2%nat) by (apply pad2_length; lia).
  assert (LM' : String.length M' = 2%nat) by (apply pad2_length; lia).
  assert (LD : String.length D = 2%nat) by (apply pad2_length; lia).
  assert (LD' : String.length D' = 2%nat) by (apply pad2_length; lia).
  apply string_app_inj in H as [Hy H]; [|simpl; rewrite !string_length_app; simpl; lia].
  simpl in H. injection H as H.
  apply string_app_inj in H as [HM H]; [|simpl; lia].
  simpl in H. injection H as H.
  apply jsString_inj in Hy. apply pad2_inj in HM; [|lia|lia]. apply pad2_inj in H; [|lia|lia].
  repeat split; lia.
Qed.

(** Distinct days have distinct keys. *)
Lemma dayKey_inj d d' : dayKey d = dayKey d' -> d = d'.
Proof.
  unfold dayKey. intros H.
  apply dateKey_inj in H as (Hy & Hm & Hd);
    try apply MonthFromDay_range; try apply DateFromDay_range.
  rewrite <- (MakeDay_fields d), <- (MakeDay_fields d'). congruence.
Qed.

(** [formatDate] writes the day of its argument, time of day dropped. *)
Lemma formatDate_dayKey t : formatDate t = dayKey (Day t).
Proof. reflexivity. Qed.

(** Splits a conjunction into its conjuncts, and nothing else. *)
Ltac split_conj := repeat match goal with |- _ /\ _ => split end.

(** C1 (code bug): the entry on 0050-03-10 is put in the bucket of the key
    "1950-03-10" and in no other, while the key of its own day is
    "50-03-10" ([new Date(50, 2, 10)] is 1950-03-10).  The spec's entry from
    2025-03-30 to 2025-04-02 does get exactly its four keys. *)
Theorem projector_two_digit_year :
  dom (entriesByDate (project [oldEntry])) = ({["1950-03-10"%string]} : gset string) /\
  dayKey (Day (startDate oldEntry)) = "50-03-10"%string /\
  occupies "50-03-10" oldEntry = true /\
  occupies "1950-03-10" oldEntry = false /\
  dom (entriesByDate (project [tripEntry])) =
    (list_to_set ["2025-03-30"; "2025-03-31"; "2025-04-01"; "2025-04-02"]%string : gset string).
Proof. split_conj; vm_compute; reflexivity. Qed.

(** C2 (code bug): the entry from 1950-06-01 to 0050-07-01 ends before it
    starts, yet the loop does not skip it: its end is rebuilt as
    1950-07-01, and the entry fills the 31 buckets from 1950-06-01 to
    1950-07-01. *)
Theorem reversed_entry_bucketed :
  skipped reversedEntry = true /\
  codeSkips reversedEntry = false /\
  entriesByDate (project [reversedEntry]) !! "1950-06-01"%string = Some [reversedEntry] /\
  entriesByDate (project [reversedEntry]) !! "1950-07-01"%string = Some [reversedEntry] /\
  size (dom (entriesByDate (project [reversedEntry]))) = 31%nat /\
  entriesByDate (project [tripEntry; reversedEntry]) <> entriesByDate (project [tripEntry]).
Proof.
  split; [vm_compute; reflexivity|]. split; [vm_compute; reflexivity|].
  split; [vm_compute; reflexivity|]. split; [vm_compute; reflexivity|].
  split; [vm_compute; reflexivity|].
  intros H. assert (E : entriesByDate (project [tripEntry; reversedEntry]) !! "1950-06-01"%string =
                        entriesByDate (project [tripEntry]) !! "1950-06-01"%string) by (rewrite H; reflexivity).
  vm_compute in E. discriminate E.
Qed.

(** C10 (code bug): the same entry from 1950-06-01 to 0050-07-01 moves the
    year bounds: with the spec's 2025 entry, they become 50 and 2025
    instead of 2025 and 2025, and the year list grows from one year to
    1976. *)
Theorem reversed_entry_moves_year_bounds :
  skipped reversedEntry = true /\
  minYear (project [tripEntry; reversedEntry]) = Some 50 /\
  maxYear (project [tripEntry; reversedEntry]) = Some 2025 /\
  minYear (project [tripEntry]) = Some 2025 /\
  maxYear (project [tripEntry]) = Some 2025 /\
  length (years (project [tripEntry; reversedEntry]) 2025) = 1976%nat /\
  years (project [tripEntry]) 2025 = [2025].
Proof. split_conj; vm_compute; reflexivity. Qed.

Lemma projectStep_years st e :
  minYear (projectStep st e) = fold_left foldMin (contribYears e) (minYear st) /\
  maxYear (projectStep st e) = fold_left foldMax (contribYears e) (maxYear st).
Proof.
  unfold contribYears, codeSkips, projectStep. cbv zeta.
  destruct (endDate e) as [d|].
  - destruct (dateOnly d <? dateOnly (startDate e)); [auto|].
    simpl. destruct (minYear st), (maxYear st); simpl; auto.
  - destruct (dateOnly (startDate e) <? dateOnly (startDate e)); [auto|].
    simpl. destruct (minYear st), (maxYear st); simpl; auto.
Qed.

Lemma project_years es st :
  minYear (fold_left projectStep es st) = fold_left foldMin (flat_map contribYears es) (minYear st) /\
  maxYear (fold_left projectStep es st) = fold_left foldMax (flat_map contribYears es) (maxYear st).
Proof.
  revert st. induction es as [|e es IH]; intros st; simpl; [auto|].
  rewrite !fold_left_app. destruct (projectStep_years st e) as [H1 H2].
  rewrite <- H1, <- H2. apply IH.
Qed.

Lemma foldMin_some ys x :
  exists m, fold_left foldMin ys (Some x) = Some m /\ m <= x /\ (m = x \/ In m ys) /\
            forall a, In a ys -> m <= a.
Proof.
  revert x. induction ys as [|y ys IH]; intros x; simpl.
  - exists x. repeat split; auto; [lia|contradiction].
  - destruct (IH (Z.min x y)) as (m & Hm & Hle & Hin & Hall). exists m. split; [exact Hm|].
    split; [lia|]. split.
    + destruct Hin as [->|Hin]; [|auto]. destruct (Z.min_spec x y) as [[_ ->]|[_ ->]]; auto.
    + intros a [<-|Ha]; [lia|auto].
Qed.

Lemma foldMax_some ys x :
  exists m, fold_left foldMax ys (Some x) = Some m /\ x <= m /\ (m = x \/ In m ys) /\
            forall a, In a ys -> a <= m.
Proof.
  revert x. induction ys as [|y ys IH]; intros x; simpl.
  - exists x. repeat split; auto; [lia|contradiction].
  - destruct (IH (Z.max x y)) as (m & Hm & Hle & Hin & Hall). exists m. split; [exact Hm|].
    split; [lia|]. split.
    + destruct Hin as [->|Hin]; [|auto]. destruct (Z.max_spec x y) as [[_ ->]|[_ ->]]; auto.
    + intros a [<-|Ha]; [lia|auto].
Qed.

Lemma indexOf_In l x :
  In x l -> 0 <= indexOf l x < Z.of_nat (length l) /\
            nth_error l (Z.to_nat (indexOf l x)) = Some x.
Proof.
  induction l as [|y l IH]; simpl; [contradiction|]. intros Hin.
  destruct (Z.eqb_spec y x) as [->|Hne].
  - split; [lia|reflexivity].
  - destruct Hin as [->|Hin]; [contradiction|].
    destruct (IH Hin) as [Hr Hn].
    destruct (Z.eqb_spec (indexOf l x) (-1)) as [E|_]; [lia|].
    split; [lia|]. replace (Z.to_nat (indexOf l x + 1)) with (S (Z.to_nat (indexOf l x))) by lia.
    exact Hn.
Qed.

Lemma indexOf_notIn l x : ~ In x l -> indexOf l x = -1.
Proof.
  induction l as [|y l IH]; simpl; intros H; [reflexivity|].
  destruct (Z.eqb_spec y x) as [->|_]; [tauto|].
  rewrite IH by tauto. reflexivity.
Qed.

Lemma at_index_In l i d : 0 <= i < Z.of_nat (length l) -> In (at_index l i d) l.
Proof.
  intros Hi. unfold at_index. destruct (nth_error l (Z.to_nat i)) as [y|] eqn:E.
  - by apply nth_error_In in E.
  - apply nth_error_None in E. lia.
Qed.

Lemma goPrevYear_in yrs cur : In cur yrs -> In (goPrevYear yrs cur) yrs.
Proof.
  intros H. destruct (indexOf_In yrs cur H) as [Hr _]. unfold goPrevYear.
  destruct (Z.ltb_spec 0 (indexOf yrs cur)); [apply at_index_In; lia|exact H].
Qed.

Lemma goNextYear_in yrs cur : In cur yrs -> In (goNextYear yrs cur) yrs.
Proof.
  intros H. destruct (indexOf_In yrs cur H) as [Hr _]. unfold goNextYear.
  destruct (negb _ && _) eqn:E; [|exact H].
  apply andb_true_iff in E as [_ E]. apply Z.ltb_lt in E. apply at_index_In. lia.
Qed.

Lemma goYear_notIn yrs cur : ~ In cur yrs -> goPrevYear yrs cur = cur /\ goNextYear yrs cur = cur.
Proof.
  intros H. unfold goPrevYear, goNextYear. rewrite (indexOf_notIn yrs cur H). auto.
Qed.

Lemma initialYear_in yrs thisYear : yrs <> [] -> In (initialYear yrs thisYear) yrs.
Proof.
  intros Hne. unfold initialYear. destruct (existsb (Z.eqb thisYear) yrs) eqn:E.
  - apply existsb_exists in E as [y [Hy Heq]]. apply Z.eqb_eq in Heq. by subst.
  - destruct yrs as [|y yrs]; [contradiction|]. left; reflexivity.
Qed.

Lemma years_span es thisYear :
  match flat_map contribYears es with
  | [] => years (project es) thisYear = [thisYear]
  | ys => exists lo hi, In lo ys /\ In hi ys /\ (forall a, In a ys -> lo <= a <= hi) /\
          years (project es) thisYear = map (fun i => lo + Z.of_nat i) (seq 0 (Z.to_nat (hi - lo + 1)))
  end.
Proof.
  destruct (project_years es (mkProjection ∅ None None)) as [Hmin Hmax].
  fold (project es) in Hmin, Hmax. cbn [minYear maxYear] in Hmin, Hmax. unfold years.
  destruct (flat_map contribYears es) as [|y ys] eqn:Hys.
  - simpl in Hmin, Hmax. rewrite Hmin, Hmax. simpl.
    replace (Z.to_nat (thisYear - thisYear + 1)) with 1%nat by lia. simpl. by rewrite Z.add_0_r.
  - destruct (foldMin_some ys y) as (lo & Hlo & Hlo1 & Hlo2 & Hlo3).
    destruct (foldMax_some ys y) as (hi & Hhi & Hhi1 & Hhi2 & Hhi3).
    assert (E1 : fold_left foldMin (y :: ys) None = Some lo) by exact Hlo.
    assert (E2 : fold_left foldMax (y :: ys) None = Some hi) by exact Hhi.
    rewrite Hmin, E1, Hmax, E2. exists lo, hi. split; [|split; [|split]].
    + destruct Hlo2 as [->|H]; [left|right]; auto.
    + destruct Hhi2 as [->|H]; [left|right]; auto.
    + intros a [<-|Ha]; [lia|]. split; auto.
    + reflexivity.
Qed.

Lemma years_nonempty es thisYear : years (project es) thisYear <> [].
Proof.
  pose proof (years_span es thisYear) as H.
  destruct (flat_map contribYears es) as [|y ys].
  - by rewrite H.
  - destruct H as (lo & hi & Hlo & Hhi & Hall & ->).
    assert (lo <= hi) by (pose proof (Hall lo Hlo); lia).
    replace (Z.to_nat (hi - lo + 1)) with (S (Z.to_nat (hi - lo))) by lia. discriminate.
Qed.

(** C9: the year list runs from the smallest to the largest year among the
    start years and end years of the entries the projector's loop keeps
    (those its [end < start] test does not skip; the current year alone
    when there is none); the spec example gives 2023 and
    2024; the initial year lies in the list, and previous/next navigation
    never leaves it (it does nothing from a year outside it). *)
Theorem year_span_and_navigation (es : list LinearEntry) (thisYear : Z) :
  let yrs := years (project es) thisYear in
  (match flat_map contribYears es with
   | [] => yrs = [thisYear]
   | ys => exists lo hi, In lo ys /\ In hi ys /\ (forall a, In a ys -> lo <= a <= hi) /\
           yrs = map (fun i => lo + Z.of_nat i) (seq 0 (Z.to_nat (hi - lo + 1)))
   end) /\
  In (initialYear yrs thisYear) yrs /\
  (forall cur, In cur yrs -> In (goPrevYear yrs cur) yrs /\ In (goNextYear yrs cur) yrs) /\
  (forall cur, ~ In cur yrs -> goPrevYear yrs cur = cur /\ goNextYear yrs cur = cur) /\
  years (project spanEntries) thisYear = [2023; 2024].
Proof.
  cbv zeta. split; [apply years_span|]. split; [apply initialYear_in, years_nonempty|].
  split; [intros cur H; split; [apply goPrevYear_in|apply goNextYear_in]; exact H|].
  split; [apply goYear_notIn|]. vm_compute. reflexivity.
Qed.

Lemma Day_next e : Day (e + msPerDay) = Day e + 1.
Proof. unfold Day. rewrite <- (Z.mul_1_l msPerDay) at 1. rewrite Z.div_add; [lia|discriminate]. Qed.

Lemma Day_prev e : Day (e - msPerDay) = Day e - 1.
Proof.
  unfold Day. replace (e - msPerDay) with (e + (-1) * msPerDay) by lia.
  rewrite Z.div_add; [lia|discriminate].
Qed.

Lemma TimeWithinDay_next e : TimeWithinDay (e + msPerDay) = TimeWithinDay e.
Proof.
  unfold TimeWithinDay. rewrite <- (Z.mul_1_l msPerDay) at 1.
  rewrite Z.mod_add; [reflexivity|discriminate].
Qed.

Lemma midnight_eqb a b : (a * msPerDay =? b * msPerDay) = (b =? a).
Proof.
  destruct (Z.eqb_spec (a * msPerDay) (b * msPerDay)), (Z.eqb_spec b a);
    unfold msPerDay in *; auto; lia.
Qed.

(** C3 (code bug): the entry from 0050-03-10 to 1950-03-10 ends on a
    later day than its start, yet its widget event gets no end: both dates
    are rebuilt as 1950-03-10 and compare equal. *)
Theorem widget_end_two_digit_year :
  endDate longEntry = Some (localMidnight 1950 2 10) /\
  (Day (localMidnight 1950 2 10) =? Day (startDate longEntry)) = false /\
  Day (startDate longEntry) < Day (localMidnight 1950 2 10) /\
  evEnd (toWidgetEvent longEntry) = None.
Proof. split_conj; vm_compute; reflexivity. Qed.

Lemma startsWith_note a : startsWith "note." ("note." ++ a) = true.
Proof. destruct a; reflexivity. Qed.

Lemma substring_all s : String.substring 0 (String.length s) s = s.
Proof. induction s as [|c s IH]; simpl; [reflexivity|by rewrite IH]. Qed.

Lemma slice5_note a : slice5 ("note." ++ a) = a.
Proof.
  unfold slice5. simpl. replace (String.length a - 0)%nat with (String.length a) by lia.
  apply substring_all.
Qed.

Lemma formatDate_inj t t' : formatDate t = formatDate t' <-> Day t = Day t'.
Proof.
  rewrite !formatDate_dayKey. split; [apply dayKey_inj|intros ->; reflexivity].
Qed.

Lemma formatDate_shape t :
  exists y mm dd, formatDate t = (jsString y ++ "-" ++ mm ++ "-" ++ dd)%string /\
                  String.length mm = 2%nat /\ String.length dd = 2%nat.
Proof.
  eexists _, _, _. split; [reflexivity|].
  split; apply pad2_length.
  - pose proof (MonthFromDay_range (Day t)). unfold getMonth. lia.
  - apply DateFromDay_range.
Qed.

Lemma setDate_prev ne : setDate ne (getDate ne - 1) = ne - msPerDay.
Proof. replace (getDate ne - 1) with (getDate ne + -1) by lia. rewrite setDate_shift. lia. Qed.

(** C4: dropping an entry that had an end date, with the widget reporting
    new start [S'] and exclusive end [R] = [E' + 1 day], writes [S'] and
    [E'] = [R - 1 day] as date-only strings into the start and end
    properties (and nothing else); each string gives back exactly its day. *)
Theorem drag_roundtrip (a b : string) (fm : FrontMatter) (c : CalendarEntry) (e0 S' R : Z)
    (Hab : String.eqb a b = false) (Hb : String.eqb b "" = false)
    (Hend : endDate c = Some e0) :
  let fm' := dropAndPersist (Some ("note." ++ a)%string) (Some ("note." ++ b)%string)
               fm c (Some S') (Some R) in
  fm' = <[b := formatDate (R - msPerDay)]> (<[a := formatDate S']> fm) /\
  fm' !! a = Some (formatDate S') /\
  fm' !! b = Some (formatDate (R - msPerDay)) /\
  Day (R - msPerDay) = Day R - 1 /\
  (forall t, formatDate t = formatDate S' <-> Day t = Day S') /\
  (forall t, formatDate t = formatDate (R - msPerDay) <-> Day t = Day R - 1) /\
  (forall t, exists y mm dd, formatDate t = (jsString y ++ "-" ++ mm ++ "-" ++ dd)%string /\
                             String.length mm = 2%nat /\ String.length dd = 2%nat).
Proof.
  assert (Hfm : dropAndPersist (Some ("note." ++ a)%string) (Some ("note." ++ b)%string)
               fm c (Some S') (Some R) =
             <[b := formatDate (R - msPerDay)]> (<[a := formatDate S']> fm)).
  { unfold dropAndPersist, toWidgetEvent, handleEventDrop. cbn [evOriginalEndDate negb].
    rewrite Hend, setDate_prev. unfold updateEntryDates.
    rewrite !startsWith_note, !slice5_note. cbn. by rewrite Hb. }
  apply String.eqb_neq in Hab.
  cbv zeta. rewrite Hfm. split; [reflexivity|]. split.
  { rewrite lookup_insert_ne by congruence. apply lookup_insert_eq. }
  split; [apply lookup_insert_eq|]. split; [apply Day_prev|].
  split; [intros t; apply formatDate_inj|].
  split; [intros t; rewrite formatDate_inj, Day_prev; reflexivity|].
  intros t. apply formatDate_shape.
Qed.

Lemma drag_roundtrip_witness :
  String.eqb "start" "end" = false /\ String.eqb "end" "" = false /\
  endDate (mkEntry "x.md" (newDate3 2025 2 10) (Some (newDate3 2025 2 12))) = Some (newDate3 2025 2 12) /\
  let fm' := dropAndPersist (Some ("note." ++ "start")%string) (Some ("note." ++ "end")%string)
               ∅ (mkEntry "x.md" (newDate3 2025 2 10) (Some (newDate3 2025 2 12)))
               (Some (newDate3 2025 2 20)) (Some (newDate3 2025 2 23)) in
  fm' = <[ "end" := formatDate (newDate3 2025 2 23 - msPerDay)]> (<[ "start" := formatDate (newDate3 2025 2 20)]> ∅) /\
  fm' !! "start" = Some (formatDate (newDate3 2025 2 20)) /\
  fm' !! "end" = Some (formatDate (newDate3 2025 2 23 - msPerDay)) /\
  Day (newDate3 2025 2 23 - msPerDay) = Day (newDate3 2025 2 23) - 1 /\
  (forall t, formatDate t = formatDate (newDate3 2025 2 20) <-> Day t = Day (newDate3 2025 2 20)) /\
  (forall t, formatDate t = formatDate (newDate3 2025 2 23 - msPerDay) <-> Day t = Day (newDate3 2025 2 23) - 1) /\
  (forall t, exists y mm dd, formatDate t = (jsString y ++ "-" ++ mm ++ "-" ++ dd)%string /\
                             String.length mm = 2%nat /\ String.length dd = 2%nat).
Proof.
  split; [reflexivity|]. split; [reflexivity|]. split; [reflexivity|].
  exact (drag_roundtrip "start" "end" ∅ (mkEntry "x.md" (newDate3 2025 2 10) (Some (newDate3 2025 2 12)))
           (newDate3 2025 2 12) (newDate3 2025 2 20) (newDate3 2025 2 23) eq_refl eq_refl eq_refl).
Defined.

(** C5 (counterexample): a single-day entry on 2025-03-10 (its widget event
    has no end) dragged to 2025-03-12 gets its end property written too. *)
Lemma single_day_drop_writes_end :
  let c := mkEntry "x.md" (newDate3 2025 2 10) (Some (newDate3 2025 2 10)) in
  let fm' := dropAndPersist (Some "note.start") (Some "note.end") ∅ c
               (Some (newDate3 2025 2 12)) None in
  evEnd (toWidgetEvent c) = None /\
  fm' !! "start" = Some "2025-03-12" /\
  fm' !! "end" = Some "2025-03-12".
Proof. vm_compute. repeat split. Qed.

(** C5 (amended): a single-day entry (end on its start day, so the widget
    event has no end) dropped on a new day [S'], the widget reporting no
    end, gets [S'] written to the start property and, when an end-date
    property of the note is configured, [S'] written as its end date too;
    the entry stays single-day on the new day. *)
Theorem single_day_drop_keeps_single_day (a b : string) (fm : FrontMatter)
    (c : CalendarEntry) (e0 S' : Z)
    (Hab : String.eqb a b = false) (Hb : String.eqb b "" = false)
    (Hend : endDate c = Some e0) (Hsd : Day e0 = Day (startDate c)) :
  let fm' := dropAndPersist (Some ("note." ++ a)%string) (Some ("note." ++ b)%string)
               fm c (Some S') None in
  evEnd (toWidgetEvent c) = None /\
  fm' = <[b := formatDate S']> (<[a := formatDate S']> fm) /\
  fm' !! a = Some (formatDate S') /\
  fm' !! b = Some (formatDate S').
Proof.
  assert (Hfm : dropAndPersist (Some ("note." ++ a)%string) (Some ("note." ++ b)%string)
               fm c (Some S') None =
             <[b := formatDate S']> (<[a := formatDate S']> fm)).
  { unfold dropAndPersist, toWidgetEvent, handleEventDrop. cbn [evOriginalEndDate negb].
    rewrite Hend. unfold updateEntryDates.
    rewrite !startsWith_note, !slice5_note. cbn. by rewrite Hb. }
  apply String.eqb_neq in Hab.
  cbv zeta. rewrite Hfm. split.
  { unfold toWidgetEvent, adjustedEndDate. cbn [evEnd].
    rewrite Hend, (dateOnly_Day e0 (startDate c) Hsd). by rewrite Z.eqb_refl. }
  split; [reflexivity|]. split.
  { rewrite lookup_insert_ne by congruence. apply lookup_insert_eq. }
  apply lookup_insert_eq.
Qed.

Lemma single_day_drop_keeps_single_day_witness :
  String.eqb "start" "end" = false /\ String.eqb "end" "" = false /\
  endDate (mkEntry "x.md" (newDate3 2025 2 10) (Some (newDate3 2025 2 10))) = Some (newDate3 2025 2 10) /\
  Day (newDate3 2025 2 10) = Day (startDate (mkEntry "x.md" (newDate3 2025 2 10) (Some (newDate3 2025 2 10)))) /\
  let c := mkEntry "x.md" (newDate3 2025 2 10) (Some (newDate3 2025 2 10)) in
  let fm' := dropAndPersist (Some ("note." ++ "start")%string) (Some ("note." ++ "end")%string)
               ∅ c (Some (newDate3 2025 2 12)) None in
  evEnd (toWidgetEvent c) = None /\
  fm' = <[ "end" := formatDate (newDate3 2025 2 12)]> (<[ "start" := formatDate (newDate3 2025 2 12)]> ∅) /\
  fm' !! "start" = Some (formatDate (newDate3 2025 2 12)) /\
  fm' !! "end" = Some (formatDate (newDate3 2025 2 12)).
Proof.
  split; [reflexivity|]. split; [reflexivity|]. split; [reflexivity|]. split; [reflexivity|].
  exact (single_day_drop_keeps_single_day "start" "end" ∅
           (mkEntry "x.md" (newDate3 2025 2 10) (Some (newDate3 2025 2 10)))
           (newDate3 2025 2 10) (newDate3 2025 2 12) eq_refl eq_refl eq_refl eq_refl).
Defined.

Section OverlayOpacity.
Local Open Scope Q_scope.

Lemma clamp_div100_range x : 0 <= Qmax 0 (Qmin 100 x) / 100 <= 1.
Proof.
  assert (H0 : 0 <= Qmax 0 (Qmin 100 x)) by apply Q.le_max_l.
  assert (H1 : Qmax 0 (Qmin 100 x) <= 100).
  { apply Q.max_lub; [discriminate|apply Q.le_min_l]. }
  split.
  - apply Qle_shift_div_l; [reflexivity|]. rewrite Qmult_0_l. exact H0.
  - apply Qle_shift_div_r; [reflexivity|]. rewrite Qmult_1_l. exact H1.
Qed.

Lemma getOverlayOpacity_range toNumber raw :
  exists q, getOverlayOpacity toNumber raw = Fin q /\ 0 <= q <= 1.
Proof.
  unfold getOverlayOpacity.
  destruct raw as [n|s|b| |];
    [destruct n as [x| | |] | destruct (toNumber s) as [x| | |] | | |];
    cbn [isNaN negb jsMin jsMax jsDiv100];
    try (eexists; split; [reflexivity|]; apply clamp_div100_range);
    eexists; (split; [reflexivity|]); split; vm_compute; discriminate.
Qed.

(** C6: [getOverlayOpacity] turns the string "70" into 0.7 and "abc" into
    the default 0.6; a finite number [x] gives [max 0 (min 100 x) / 100], a
    string gives what its [Number(...)] value gives, and every input gives a
    number in [0, 1]. *)
Theorem overlay_opacity_normalisation :
  (exists q, getOverlayOpacity StringToNumber (CString "70") = Fin q /\ q == 7 # 10) /\
  getOverlayOpacity StringToNumber (CString "abc") = Fin (6 # 10) /\
  (forall toNumber x,
      getOverlayOpacity toNumber (CNumber (Fin x)) = Fin (Qmax 0 (Qmin 100 x) / 100)) /\
  (forall toNumber s,
      getOverlayOpacity toNumber (CString s) = getOverlayOpacity toNumber (CNumber (toNumber s))) /\
  (forall toNumber raw, exists q, getOverlayOpacity toNumber raw = Fin q /\ 0 <= q <= 1).
Proof.
  split; [eexists; split; [vm_compute; reflexivity|reflexivity]|].
  split; [vm_compute; reflexivity|].
  split; [reflexivity|].
  split; [reflexivity|].
  exact getOverlayOpacity_range.
Qed.

End OverlayOpacity.

Lemma ceil_div7 a : mathCeil (inject_Z a / inject_Z 7) = - ((- a) / 7).
Proof. unfold mathCeil, Qceiling, Qfloor. cbn. rewrite Z.mul_1_r. reflexivity. Qed.

Lemma ceil_div7_mul a :
  (mathCeil (inject_Z a / inject_Z 7) * 7) mod 7 = 0 /\
  a <= mathCeil (inject_Z a / inject_Z 7) * 7 < a + 7.
Proof.
  rewrite ceil_div7. split; [apply Z.mod_mul; discriminate|].
  pose proof (Z.div_mod (- a) 7 ltac:(discriminate)).
  pose proof (Z.mod_pos_bound (- a) 7 ltac:(reflexivity)). lia.
Qed.

Lemma getDay_range t : 0 <= getDay t <= 6.
Proof. unfold getDay. pose proof (Z.mod_pos_bound (Day t + 4) 7 ltac:(reflexivity)). lia. Qed.

Lemma daysInMonth_pos y m : 1 <= daysInMonth y m.
Proof. unfold daysInMonth, getDate. apply DateFromDay_range. Qed.

Lemma msFirstWeekday_monthSlot y mi : msFirstWeekday (monthSlot y mi) = getDay (newDate3 y mi 1).
Proof. reflexivity. Qed.

Lemma msDays_monthSlot y mi : msDays (monthSlot y mi) = daysInMonth y mi.
Proof. reflexivity. Qed.

Lemma monthSlot_total y mi :
  let m := monthSlot y mi in
  msTotalSlots m mod 7 = 0 /\
  msFirstWeekday m + msDays m <= msTotalSlots m < msFirstWeekday m + msDays m + 7.
Proof.
  unfold monthSlot. cbn [msTotalSlots msFirstWeekday msDays].
  apply (ceil_div7_mul (getDay (newDate3 y mi 1) + daysInMonth y mi)).
Qed.

Section FoldMax.
Context {A : Type} (g : A -> Z).

Lemma fold_max_ge l a :
  a <= fold_left (fun mx m => Z.max mx (g m)) l a /\
  Forall (fun x => g x <= fold_left (fun mx m => Z.max mx (g m)) l a) l.
Proof.
  revert a; induction l as [|x l IH]; intros a; simpl; [split; [lia|constructor]|].
  destruct (IH (Z.max a (g x))) as [H1 H2]. split; [lia|constructor; [lia|exact H2]].
Qed.

Lemma fold_max_attained l a :
  fold_left (fun mx m => Z.max mx (g m)) l a = a \/
  exists x, In x l /\ fold_left (fun mx m => Z.max mx (g m)) l a = g x.
Proof.
  revert a; induction l as [|x l IH]; intros a; simpl; [left; reflexivity|].
  destruct (IH (Z.max a (g x))) as [H|(z & Hz & H)].
  - rewrite H. destruct (Z.max_spec a (g x)) as [[_ ->]|[_ ->]].
    + right. exists x. auto.
    + left. reflexivity.
  - right. exists z. auto.
Qed.

End FoldMax.

Lemma In_monthIndices mi : In mi monthIndices <-> 0 <= mi < 12.
Proof.
  unfold monthIndices. rewrite in_map_iff. split.
  - intros (n & <- & Hn). apply in_seq in Hn. lia.
  - intros H. exists (Z.to_nat mi). split; [lia|]. apply in_seq. lia.
Qed.

Lemma nth_monthIndices mi : 0 <= mi < 12 -> nth_error monthIndices (Z.to_nat mi) = Some mi.
Proof.
  intros H. unfold monthIndices. rewrite nth_error_map, nth_error_seq.
  destruct (Nat.ltb_spec (Z.to_nat mi) 12); [|lia]. cbn. f_equal. lia.
Qed.

Lemma maxSlots_ge y mi : 0 <= mi < 12 -> msTotalSlots (monthSlot y mi) <= maxSlots y.
Proof.
  intros H.
  pose proof (proj2 (fold_max_ge msTotalSlots (monthSlots y) 0)) as Hall.
  rewrite List.Forall_forall in Hall.
  specialize (Hall (monthSlot y mi)).
  assert (Hin : In (monthSlot y mi) (monthSlots y)).
  { unfold monthSlots. apply in_map. by apply In_monthIndices. }
  specialize (Hall Hin). exact Hall.
Qed.

Lemma monthSlot_total_pos y mi : 1 <= msTotalSlots (monthSlot y mi).
Proof.
  destruct (monthSlot_total y mi) as [_ [H _]].
  pose proof (daysInMonth_pos y mi) as Hd. pose proof (getDay_range (newDate3 y mi 1)) as Hf.
  rewrite <- msDays_monthSlot in Hd. rewrite <- msFirstWeekday_monthSlot in Hf. lia.
Qed.

Lemma maxSlots_eq y :
  maxSlots y = fold_left (fun mx m => Z.max mx (msTotalSlots m)) (monthSlots y) 0.
Proof. reflexivity. Qed.

Lemma maxSlots_attained y :
  exists mi, 0 <= mi < 12 /\ msTotalSlots (monthSlot y mi) = maxSlots y.
Proof.
  rewrite maxSlots_eq.
  destruct (fold_max_attained msTotalSlots (monthSlots y) 0) as [H|(m & Hm & H)].
  - exfalso. pose proof (maxSlots_ge y 0 ltac:(lia)) as H1. pose proof (monthSlot_total_pos y 0) as H2.
    rewrite maxSlots_eq, H in H1. lia.
  - unfold monthSlots in Hm. apply in_map_iff in Hm as (mi & Hmi & Hin).
    exists mi. split; [by apply In_monthIndices|]. rewrite H, Hmi. reflexivity.
Qed.

Lemma monthRow_length y mi mx meta : length (monthRow y mi mx meta) = Z.to_nat mx.
Proof. unfold monthRow. by rewrite length_map, length_seq. Qed.

Lemma monthRow_pad y mi mx meta idx :
  0 <= msTotalSlots meta -> msTotalSlots meta <= idx < mx -> nth_error (monthRow y mi mx meta) (Z.to_nat idx) = Some Pad.
Proof.
  intros H0 H. unfold monthRow. rewrite nth_error_map, nth_error_seq.
  destruct (Nat.ltb_spec (Z.to_nat idx) (Z.to_nat mx)); [|lia]. cbn.
  rewrite Z2Nat.id by lia. destruct (Z.leb_spec (msTotalSlots meta) idx) as [_|Hlt]; [reflexivity|lia].
Qed.

(** C7: in the weekday-aligned layout of any year, each month's slot count
    is the least multiple of 7 that is at least its first weekday (Sunday
    = 0) plus its number of days; all twelve rows have [maxSlots] slots, the
    largest of the twelve counts, and the slots past a month's own count are
    padding. *)
Theorem aligned_year_slots (year : Z) :
  length (renderAlignedYear year) = 12%nat /\
  (forall mi, 0 <= mi < 12 ->
     let m := monthSlot year mi in
     msFirstWeekday m = getDay (newDate3 year mi 1) /\ 0 <= msFirstWeekday m <= 6 /\
     msDays m = daysInMonth year mi /\
     msTotalSlots m mod 7 = 0 /\
     msFirstWeekday m + msDays m <= msTotalSlots m < msFirstWeekday m + msDays m + 7 /\
     msTotalSlots m <= maxSlots year /\
     nth_error (renderAlignedYear year) (Z.to_nat mi) = Some (monthRow year mi (maxSlots year) m) /\
     length (monthRow year mi (maxSlots year) m) = Z.to_nat (maxSlots year) /\
     (forall idx, msTotalSlots m <= idx < maxSlots year ->
        nth_error (monthRow year mi (maxSlots year) m) (Z.to_nat idx) = Some Pad)) /\
  (exists mi, 0 <= mi < 12 /\ msTotalSlots (monthSlot year mi) = maxSlots year).
Proof.
  split; [unfold renderAlignedYear; by rewrite length_map|].
  split; [|apply maxSlots_attained].
  intros mi Hmi. cbv zeta.
  destruct (monthSlot_total year mi) as [Hmod Hbnd].
  split; [apply msFirstWeekday_monthSlot|].
  split; [rewrite msFirstWeekday_monthSlot; apply getDay_range|].
  split; [apply msDays_monthSlot|].
  split; [exact Hmod|]. split; [exact Hbnd|]. split; [by apply maxSlots_ge|].
  split; [unfold renderAlignedYear; by rewrite nth_error_map, nth_monthIndices|].
  split; [apply monthRow_length|]. intros idx; apply monthRow_pad.
  pose proof (monthSlot_total_pos year mi). lia.
Qed.

Lemma weekendCheckRuns_loadFlags alignRaw highlightRaw valid :
  weekendCheckRuns (loadFlags alignRaw highlightRaw) valid = false.
Proof.
  unfold weekendCheckRuns, loadFlags. cbn.
  destruct (getBooleanConfig alignRaw), (getBooleanConfig highlightRaw), valid; reflexivity.
Qed.

(** C8: the weekday computation of [renderCell] runs only when both the
    [alignWeekdays] and [highlightWeekends] options are set; with
    [alignWeekdays] off the effective [highlightWeekends] is false and no
    cell is marked as a weekend.  (With the flags as [loadConfig] sets them
    the computation in fact never runs: it also requires [alignWeekdays] to
    be off.) *)
Theorem weekend_check_needs_both_flags :
  (forall alignRaw highlightRaw valid,
      weekendCheckRuns (loadFlags alignRaw highlightRaw) valid = true ->
      getBooleanConfig alignRaw = true /\ getBooleanConfig highlightRaw = true) /\
  (forall alignRaw highlightRaw,
      getBooleanConfig alignRaw = false ->
      highlightWeekends (loadFlags alignRaw highlightRaw) = false /\
      forall year month day valid,
        isWeekend (loadFlags alignRaw highlightRaw) year month day valid = false) /\
  (forall alignRaw highlightRaw valid,
      weekendCheckRuns (loadFlags alignRaw highlightRaw) valid = false).
Proof.
  split; [|split].
  - intros a h v H. by rewrite weekendCheckRuns_loadFlags in H.
  - intros a h Ha. split; [unfold loadFlags; cbn; by rewrite Ha|].
    intros y m d v. unfold isWeekend. by rewrite weekendCheckRuns_loadFlags.
  - exact weekendCheckRuns_loadFlags.
Qed.

(* ------------------------------------------------------------------ *)
(** ** Further properties of the calendar, the views and the image
    references *)

Lemma days_from_civil_period y m d q :
  days_from_civil (y + 400 * q) m d = days_from_civil y m d + 146097 * q.
Proof.
  unfold days_from_civil.
  set (A := if m <=? 2 then y - 1 else y).
  replace (if m <=? 2 then y + 400 * q - 1 else y + 400 * q) with (A + q * 400)
    by (unfold A; destruct (m <=? 2); lia).
  rewrite Z.div_add by lia.
  replace (A + q * 400 - (A / 400 + q) * 400) with (A - A / 400 * 400) by lia.
  lia.
Qed.

Lemma MakeDay_period r q m d : MakeDay (r + 400 * q) m d = MakeDay r m d + 146097 * q.
Proof.
  unfold MakeDay.
  replace (r + 400 * q + m / 12) with ((r + m / 12) + 400 * q) by lia.
  rewrite days_from_civil_period. lia.
Qed.

Lemma civil_period z q :
  civil_from_days (z + 146097 * q) =
  let '(y, m, d) := civil_from_days z in (y + 400 * q, m, d).
Proof.
  unfold civil_from_days.
  replace (z + 146097 * q + 719468) with ((z + 719468) + q * 146097) by lia.
  rewrite Z.div_add by lia.
  replace (z + 719468 + q * 146097 - ((z + 719468) / 146097 + q) * 146097)
    with (z + 719468 - (z + 719468) / 146097 * 146097) by lia.
  destruct (doe_fields _) as [[yoe m] d].
  destruct (m <=? 2); f_equal; f_equal; lia.
Qed.

Lemma mod_period r q k : k <> 0 -> 400 mod k = 0 -> (r + 400 * q) mod k = r mod k.
Proof.
  intros Hk H.
  rewrite Z.add_mod, Z.mul_mod, H by exact Hk.
  rewrite Z.mul_0_l, Z.mod_0_l, Z.add_0_r by exact Hk.
  apply Z.mod_mod; exact Hk.
Qed.

Lemma isLeapYear_period r q : isLeapYear (r + 400 * q) = isLeapYear r.
Proof.
  unfold isLeapYear.
  rewrite !mod_period by (reflexivity || lia). reflexivity.
Qed.

Lemma gregorianMonthLength_period r q m :
  gregorianMonthLength (r + 400 * q) m = gregorianMonthLength r m.
Proof. unfold gregorianMonthLength. rewrite isLeapYear_period. reflexivity. Qed.

Lemma newDate3_day y m d : Day (newDate3 y m d) = MakeDay (MakeFullYear y) m d.
Proof. unfold newDate3, MakeDate. rewrite Z.add_0_r. apply Day_midnight. Qed.

Lemma DateFromDay_period z q : DateFromDay (z + 146097 * q) = DateFromDay z.
Proof.
  unfold DateFromDay. rewrite civil_period.
  destruct (civil_from_days z) as [[y' m'] d']. reflexivity.
Qed.

(** [daysInMonth] is the day of month of day 0 of the next month, in the
    year [MakeFullYear] reads. *)
Lemma daysInMonth_raw y m : daysInMonth y m = DateFromDay (MakeDay (MakeFullYear y) (m + 1) 0).
Proof. unfold daysInMonth, getDate. by rewrite newDate3_day. Qed.

Lemma year_table :
  forallb (fun y => forallb (month_ok y) monthIndices) (map Z.of_nat (seq 0 400)) = true.
Proof. vm_compute. reflexivity. Qed.

Lemma forallb_table_In (l : list Z) r m :
  forallb (fun y => forallb (month_ok y) monthIndices) l = true ->
  In r l -> In m monthIndices -> month_ok r m = true.
Proof.
  intros T Hr Hm. rewrite forallb_forall in T. specialize (T r Hr).
  rewrite forallb_forall in T. exact (T m Hm).
Qed.

Lemma seq400_In r : 0 <= r < 400 -> In r (map Z.of_nat (seq 0 400)).
Proof. intros Hr. apply in_map_iff. exists (Z.to_nat r). split; [lia|]. apply in_seq. lia. Qed.

Lemma month_ok_table r m : 0 <= r < 400 -> 0 <= m <= 11 -> month_ok r m = true.
Proof.
  intros Hr Hm. apply (forallb_table_In (map Z.of_nat (seq 0 400))).
  - exact year_table.
  - apply seq400_In. exact Hr.
  - apply In_monthIndices. lia.
Qed.

Lemma year_decomp y : y = y mod 400 + 400 * (y / 400).
Proof. pose proof (Z.div_mod y 400). lia. Qed.

Lemma month_ok_all y m : 0 <= m <= 11 ->
  MakeDay y (m + 1) 1 = MakeDay y m 1 + gregorianMonthLength y m /\
  DateFromDay (MakeDay y (m + 1) 0) = gregorianMonthLength y m /\
  forall d, 1 <= d <= gregorianMonthLength y m ->
    civil_from_days (MakeDay y m d) = (y, m + 1, d).
Proof.
  intros Hm.
  rewrite (year_decomp y).
  set (r := y mod 400). set (q := y / 400).
  assert (Hr : 0 <= r < 400) by (apply Z.mod_pos_bound; lia).
  pose proof (month_ok_table r m Hr Hm) as T. unfold month_ok in T.
  apply andb_prop in T as [T Hdays]. apply andb_prop in T as [Hnext Hlen].
  apply Z.eqb_eq in Hnext. apply Z.eqb_eq in Hlen.
  rewrite !MakeDay_period, !gregorianMonthLength_period, DateFromDay_period.
  split; [lia|]. split; [exact Hlen|].
  intros d Hd. rewrite MakeDay_period, civil_period.
  rewrite forallb_forall in Hdays.
  assert (Hin : In d (map Z.of_nat (seq 1 (Z.to_nat (gregorianMonthLength r m))))).
  { apply in_map_iff. exists (Z.to_nat d). split; [lia|]. apply in_seq. lia. }
  specialize (Hdays d Hin).
  destruct (civil_from_days (MakeDay r m d)) as [[y' m'] d'].
  apply andb_prop in Hdays as [H1 H3]. apply andb_prop in H1 as [H1 H2].
  apply Z.eqb_eq in H1, H2, H3. subst. reflexivity.
Qed.

(** X1: for every year and every month index 0..11, [daysInMonth] is the
    Gregorian length of that month in the year [MakeFullYear year] (the
    year itself, but 1900 + year for the years 0..99: [daysInMonth(0, 1)]
    is 28, the length of February 1900);
    [new Date(year, month, daysInMonth + 1)] is the first day of the next
    month, and each day 1..daysInMonth built with [new Date(year, month,
    day)] reads back as year [MakeFullYear year], the same month and the
    same day. *)
Theorem daysInMonth_gregorian (year month : Z) (Hm : 0 <= month <= 11) :
  daysInMonth year month = gregorianMonthLength (MakeFullYear year) month /\
  newDate3 year month (daysInMonth year month + 1) = newDate3 year (month + 1) 1 /\
  (forall day, 1 <= day <= daysInMonth year month ->
     getFullYear (newDate3 year month day) = MakeFullYear year /\
     getMonth (newDate3 year month day) = month /\
     getDate (newDate3 year month day) = day).
Proof.
  destruct (month_ok_all (MakeFullYear year) month Hm) as (Hnext & Hlen & Hdays).
  rewrite daysInMonth_raw, Hlen. split; [reflexivity|]. split.
  - unfold newDate3. f_equal.
    replace (gregorianMonthLength (MakeFullYear year) month + 1)
      with (1 + gregorianMonthLength (MakeFullYear year) month) by lia.
    rewrite MakeDay_date. lia.
  - intros day Hd. unfold getFullYear, getMonth, getDate, YearFromDay, MonthFromDay, DateFromDay.
    rewrite newDate3_day, (Hdays day Hd). cbn. repeat split; lia.
Qed.

Lemma daysInMonth_gregorian_witness :
  0 <= 1 <= 11 /\ daysInMonth 0 1 = 28 /\ daysInMonth 2024 1 = 29.
Proof.
  split; [lia|]. split.
  - destruct (daysInMonth_gregorian 0 1 ltac:(lia)) as [H _].
    rewrite H. vm_compute. reflexivity.
  - destruct (daysInMonth_gregorian 2024 1 ltac:(lia)) as [H _].
    rewrite H. vm_compute. reflexivity.
Defined.

(* ---- standard layout ---- *)

Lemma gregorianMonthLength_cases y m :
  gregorianMonthLength y m = 28 \/ gregorianMonthLength y m = 29 \/
  gregorianMonthLength y m = 30 \/ gregorianMonthLength y m = 31.
Proof.
  unfold gregorianMonthLength.
  destruct (m =? 1); [destruct (isLeapYear y); auto|].
  destruct (_ || _); auto.
Qed.

(** X3: the standard layout has twelve rows, the row of month [m] is
    [standardRow year m], it has 31 cells, and its valid cells are exactly
    the days 1 .. the Gregorian length of the month in year
    [MakeFullYear year], in order (29 for February 0, read as 1900, is not
    among them). *)
Theorem standard_year_layout (year : Z) :
  length (renderStandardYear year) = 12%nat /\
  forall month, 0 <= month <= 11 ->
    nth_error (renderStandardYear year) (Z.to_nat month) = Some (standardRow year month) /\
    length (standardRow year month) = 31%nat /\
    List.filter (fun s => match s with Cell _ _ _ v => v | Pad => false end) (standardRow year month) =
      map (fun d => Cell year month (Z.of_nat d) true)
          (seq 1 (Z.to_nat (gregorianMonthLength (MakeFullYear year) month))).
Proof.
  split; [reflexivity|]. intros month Hm. split; [|split].
  - unfold renderStandardYear. rewrite nth_error_map, nth_monthIndices by lia. reflexivity.
  - unfold standardRow. rewrite length_map, length_seq. reflexivity.
  - destruct (month_ok_all (MakeFullYear year) month Hm) as (_ & Hlen & _).
    unfold standardRow. rewrite daysInMonth_raw, Hlen.
    destruct (gregorianMonthLength_cases (MakeFullYear year) month) as [-> | [-> | [-> | ->]]];
      reflexivity.
Qed.

(* ---- aligned layout ---- *)

Lemma getDay_newDate3 y m d : getDay (newDate3 y m d) = (MakeDay (MakeFullYear y) m d + 4) mod 7.
Proof. unfold getDay. rewrite newDate3_day. reflexivity. Qed.

Lemma monthRow_nth y mi mx meta idx :
  nth_error (monthRow y mi mx meta) idx =
  if (idx <? Z.to_nat mx)%nat then
    Some (if msTotalSlots meta <=? Z.of_nat idx then Pad
          else Cell y mi (Z.of_nat idx - msFirstWeekday meta + 1)
                 ((1 <=? Z.of_nat idx - msFirstWeekday meta + 1) &&
                  (Z.of_nat idx - msFirstWeekday meta + 1 <=? msDays meta)))
  else None.
Proof.
  unfold monthRow. rewrite nth_error_map, nth_error_seq.
  destruct (idx <? Z.to_nat mx)%nat; reflexivity.
Qed.

(** X4: in the weekday-aligned layout, row [month] is the row of that
    month, every day cell in slot [idx] of it falls on the weekday
    [idx mod 7] (Sunday = 0) of the date [new Date(year, month, day)]
    builds (in year [MakeFullYear year], so 1900 + year for the years
    0..99, the year whose weekdays both [monthSlot] and the cell use), and day [d] of the month (1 <= d <=
    daysInMonth) sits as a valid cell at slot [firstWeekday + d - 1]. *)
Theorem aligned_weekday_columns (year month : Z) (Hm : 0 <= month <= 11) :
  nth_error (renderAlignedYear year) (Z.to_nat month) =
    Some (monthRow year month (maxSlots year) (monthSlot year month)) /\
  (forall (idx : nat) day valid,
     nth_error (monthRow year month (maxSlots year) (monthSlot year month)) idx =
       Some (Cell year month day valid) ->
     getDay (newDate3 year month day) = Z.of_nat idx mod 7) /\
  (forall day, 1 <= day <= daysInMonth year month ->
     nth_error (monthRow year month (maxSlots year) (monthSlot year month))
       (Z.to_nat (getDay (newDate3 year month 1) + day - 1)) = Some (Cell year month day true)).
Proof.
  split; [|split].
  - unfold renderAlignedYear. rewrite nth_error_map, nth_monthIndices by lia. reflexivity.
  - intros idx day valid H.
    pose proof (msFirstWeekday_monthSlot year month) as Hfw.
    pose proof (msDays_monthSlot year month) as Hdm.
    pose proof (monthSlot_total year month) as [_ Ht]. cbv zeta in Ht.
    pose proof (maxSlots_ge year month ltac:(lia)) as Hmax.
    revert H Ht Hmax. generalize (maxSlots year) as mx. revert Hfw Hdm.
    generalize (monthSlot year month) as meta. intros meta Hfw Hdm mx H Ht Hmax.
    rewrite monthRow_nth in H.
    destruct (idx <? Z.to_nat mx)%nat; [|discriminate].
    destruct (msTotalSlots meta <=? Z.of_nat idx); [discriminate|].
    injection H as Hday _. rewrite Hfw in Hday. subst day.
    rewrite !getDay_newDate3.
    set (a := MakeDay (MakeFullYear year) month 1 + 4).
    replace (Z.of_nat idx - (a mod 7) + 1) with (1 + (Z.of_nat idx - (a mod 7))) by lia.
    rewrite MakeDay_date. fold a.
    pose proof (Z.div_mod a 7 ltac:(lia)).
    replace (MakeDay (MakeFullYear year) month 1 + (Z.of_nat idx - a mod 7) + 4) with (Z.of_nat idx + (a / 7) * 7)
      by (unfold a in *; lia).
    apply Z_mod_plus_full.
  - intros day Hd.
    pose proof (msFirstWeekday_monthSlot year month) as Hfw.
    pose proof (msDays_monthSlot year month) as Hdm.
    pose proof (monthSlot_total year month) as [_ Ht]. cbv zeta in Ht.
    pose proof (maxSlots_ge year month ltac:(lia)) as Hmax.
    pose proof (getDay_range (newDate3 year month 1)) as Hr.
    revert Ht Hmax. generalize (maxSlots year) as mx. revert Hfw Hdm.
    generalize (monthSlot year month) as meta. intros meta Hfw Hdm mx Ht Hmax.
    rewrite Hfw, Hdm in Ht.
    rewrite monthRow_nth.
    destruct (Nat.ltb_spec (Z.to_nat (getDay (newDate3 year month 1) + day - 1)) (Z.to_nat mx)); [|lia].
    rewrite Z2Nat.id by lia.
    destruct (Z.leb_spec (msTotalSlots meta) (getDay (newDate3 year month 1) + day - 1)); [lia|].
    rewrite Hfw, Hdm.
    replace (getDay (newDate3 year month 1) + day - 1 - getDay (newDate3 year month 1) + 1) with day by lia.
    destruct (Z.leb_spec 1 day); [|lia]. destruct (Z.leb_spec day (daysInMonth year month)); [|lia].
    reflexivity.
Qed.

Lemma aligned_weekday_columns_witness :
  0 <= 1 <= 11 /\
  nth_error (monthRow 2024 1 (maxSlots 2024) (monthSlot 2024 1))
    (Z.to_nat (getDay (newDate3 2024 1 1) + 29 - 1)) = Some (Cell 2024 1 29 true).
Proof.
  split; [lia|].
  destruct (aligned_weekday_columns 2024 1 ltac:(lia)) as (_ & _ & H).
  apply H. vm_compute. split; discriminate.
Defined.

(* ---- navigation buttons ---- *)

Lemma years_dayRange lo k n :
  map (fun i => lo + Z.of_nat i) (seq k n) = dayRange (lo + Z.of_nat k) n.
Proof.
  revert k. induction n as [|n IH]; intros k; [reflexivity|].
  cbn [seq map dayRange]. rewrite IH. f_equal. f_equal. lia.
Qed.

Lemma dayRange_length lo n : length (dayRange lo n) = n.
Proof. revert lo. induction n; intros lo; cbn; [reflexivity|]. by rewrite IHn. Qed.

Ltac cmp_cases :=
  repeat match goal with
  | |- context [Z.eqb ?a ?b] => destruct (Z.eqb_spec a b)
  | |- context [Z.leb ?a ?b] => destruct (Z.leb_spec a b)
  | |- context [Z.ltb ?a ?b] => destruct (Z.ltb_spec a b)
  end.

Lemma indexOf_dayRange lo n x :
  indexOf (dayRange lo n) x = if (lo <=? x) && (x <? lo + Z.of_nat n) then x - lo else -1.
Proof.
  revert lo. induction n as [|n IH]; intros lo; cbn [dayRange indexOf].
  - cmp_cases; cbn [andb]; lia.
  - rewrite IH. destruct (Z.leb_spec (lo + 1) x); destruct (Z.ltb_spec x (lo + 1 + Z.of_nat n)); cbn [andb]; cmp_cases; cbn [andb]; lia.
Qed.

Lemma at_index_dayRange lo n j d : 0 <= j < Z.of_nat n -> at_index (dayRange lo n) j d = lo + j.
Proof.
  intros Hj. unfold at_index.
  revert lo j Hj. induction n as [|n IH]; intros lo j Hj; [lia|].
  cbn [dayRange]. destruct (Z.to_nat j) as [|k] eqn:E.
  - cbn. lia.
  - cbn [nth_error]. replace k with (Z.to_nat (j - 1)) by lia.
    rewrite IH by lia. lia.
Qed.

Lemma nav_dayRange lo n x :
  (prevDisabled (dayRange lo n) x = true <-> goPrevYear (dayRange lo n) x = x) /\
  (nextDisabled (dayRange lo n) x = true <-> goNextYear (dayRange lo n) x = x).
Proof.
  unfold prevDisabled, nextDisabled, goPrevYear, goNextYear.
  rewrite indexOf_dayRange, dayRange_length.
  destruct ((lo <=? x) && (x <? lo + Z.of_nat n)) eqn:E.
  - apply andb_prop in E as [E1 E2]. apply Z.leb_le in E1. apply Z.ltb_lt in E2.
    split.
    + destruct (Z.ltb_spec 0 (x - lo)).
      * rewrite at_index_dayRange by lia. cmp_cases; split; intros; (lia || discriminate).
      * cmp_cases; split; intros; (lia || reflexivity || discriminate).
    + destruct (Z.eqb_spec (x - lo) (-1)); [lia|].
      destruct (Z.ltb_spec (x - lo) (Z.of_nat n - 1)); cbn [andb orb negb].
      * rewrite at_index_dayRange by lia. cmp_cases; cbn [andb orb negb]; split; intros; (lia || discriminate).
      * cmp_cases; cbn [andb orb negb]; split; intros; (lia || reflexivity || discriminate).
  - cbn. split; split; reflexivity.
Qed.

(** X5: for the year list of any projection, the previous-year button is
    disabled exactly when [goPrevYear] would leave the current year
    unchanged, and the next-year button exactly when [goNextYear] would. *)
Theorem nav_buttons_disabled (es : list LinearEntry) (thisYear currentYear : Z) :
  (prevDisabled (years (project es) thisYear) currentYear = true <->
     goPrevYear (years (project es) thisYear) currentYear = currentYear) /\
  (nextDisabled (years (project es) thisYear) currentYear = true <->
     goNextYear (years (project es) thisYear) currentYear = currentYear).
Proof.
  unfold years. rewrite years_dayRange, Z.add_0_r. apply nav_dayRange.
Qed.

(* ---- numeric options ---- *)

Section NumericOptions.
Local Open Scope Q_scope.

Lemma clamp_range lo hi x : lo <= hi -> lo <= Qmax lo (Qmin hi x) <= hi.
Proof.
  intros H. split; [apply Q.le_max_l|]. apply Q.max_lub; [exact H|apply Q.le_min_l].
Qed.

Lemma getDayNumberSize_range toNumber raw :
  exists q, getDayNumberSize toNumber raw = Fin q /\ 12 <= q <= 40.
Proof.
  unfold getDayNumberSize, numericConfigValue.
  destruct raw as [n|s|b| |];
    [destruct n as [x| | |] | destruct (toNumber s) as [x| | |] | | |];
    cbn [isNaN negb jsMin jsMax];
    try (eexists; split; [reflexivity|]; apply clamp_range; discriminate);
    eexists; (split; [reflexivity|]); split; vm_compute; discriminate.
Qed.

(** X6: [getDayNumberSize] always returns a finite number in [12, 40]: a
    number is clamped to that range, a string is read with [Number(...)]
    first, [NaN] and non-numeric values give the default 18, and the two
    infinities give 40 and 12. *)
Theorem dayNumberSize_clamped :
  (forall toNumber raw, exists q, getDayNumberSize toNumber raw = Fin q /\ 12 <= q <= 40) /\
  (forall toNumber x, getDayNumberSize toNumber (CNumber (Fin x)) = Fin (Qmax 12 (Qmin 40 x))) /\
  (forall toNumber s,
     getDayNumberSize toNumber (CString s) = getDayNumberSize toNumber (CNumber (toNumber s))) /\
  (forall toNumber,
     getDayNumberSize toNumber (CNumber NaN) = Fin 18 /\
     getDayNumberSize toNumber (CNumber PosInf) = Fin 40 /\
     getDayNumberSize toNumber (CNumber NegInf) = Fin 12 /\
     (forall b, getDayNumberSize toNumber (CBoolean b) = Fin 18) /\
     getDayNumberSize toNumber CNull = Fin 18 /\
     getDayNumberSize toNumber COther = Fin 18).
Proof.
  split; [exact getDayNumberSize_range|].
  split; [reflexivity|]. split; [reflexivity|].
  intros toNumber. repeat split.
Qed.

Lemma getDayCellHeight_range toNumber raw :
  exists q, getDayCellHeight toNumber raw = Fin q /\ 80 <= q <= 220.
Proof.
  unfold getDayCellHeight, numericConfigValue.
  destruct raw as [n|s|b| |];
    [destruct n as [x| | |] | destruct (toNumber s) as [x| | |] | | |];
    cbn [isNaN negb jsMin jsMax];
    try (eexists; split; [reflexivity|]; apply clamp_range; discriminate);
    eexists; (split; [reflexivity|]); split; vm_compute; discriminate.
Qed.

(** X7: [getDayCellHeight] always returns a finite number in [80, 220]: a
    number is clamped to that range, a string is read with [Number(...)]
    first, [NaN] and non-numeric values give the default 120, and the two
    infinities give 220 and 80. *)
Theorem dayCellHeight_clamped :
  (forall toNumber raw, exists q, getDayCellHeight toNumber raw = Fin q /\ 80 <= q <= 220) /\
  (forall toNumber x, getDayCellHeight toNumber (CNumber (Fin x)) = Fin (Qmax 80 (Qmin 220 x))) /\
  (forall toNumber s,
     getDayCellHeight toNumber (CString s) = getDayCellHeight toNumber (CNumber (toNumber s))) /\
  (forall toNumber,
     getDayCellHeight toNumber (CNumber NaN) = Fin 120 /\
     getDayCellHeight toNumber (CNumber PosInf) = Fin 220 /\
     getDayCellHeight toNumber (CNumber NegInf) = Fin 80 /\
     (forall b, getDayCellHeight toNumber (CBoolean b) = Fin 120) /\
     getDayCellHeight toNumber CNull = Fin 120 /\
     getDayCellHeight toNumber COther = Fin 120).
Proof.
  split; [exact getDayCellHeight_range|].
  split; [reflexivity|]. split; [reflexivity|].
  intros toNumber. repeat split.
Qed.

Lemma clamp_div100_scale x : 6 # 10 <= Qmax 60 (Qmin 160 x) / 100 <= 16 # 10.
Proof.
  destruct (clamp_range 60 160 x ltac:(discriminate)) as [H0 H1].
  split.
  - apply Qle_shift_div_l; [reflexivity|]. eapply Qle_trans; [|exact H0].
    vm_compute. discriminate.
  - apply Qle_shift_div_r; [reflexivity|]. eapply Qle_trans; [exact H1|].
    vm_compute. discriminate.
Qed.

Lemma getChipScale_range toNumber raw :
  exists q, getChipScale toNumber raw = Fin q /\ 6 # 10 <= q <= 16 # 10.
Proof.
  unfold getChipScale, numericConfigValue.
  destruct raw as [n|s|b| |];
    [destruct n as [x| | |] | destruct (toNumber s) as [x| | |] | | |];
    cbn [isNaN negb jsMin jsMax jsDiv100];
    try (eexists; split; [reflexivity|]; apply clamp_div100_scale);
    eexists; (split; [reflexivity|]); split; vm_compute; discriminate.
Qed.

(** X8: [getChipScale] always returns a finite number in [0.6, 1.6]: a
    number is clamped to [60, 160] then divided by 100, a string is read
    with [Number(...)] first ("120" gives 1.2), and [NaN] and non-numeric
    values ("big", booleans, null) give the default 1. *)
Theorem chipScale_clamped :
  (forall toNumber raw, exists q, getChipScale toNumber raw = Fin q /\ 6 # 10 <= q <= 16 # 10) /\
  (forall toNumber x, getChipScale toNumber (CNumber (Fin x)) = Fin (Qmax 60 (Qmin 160 x) / 100)) /\
  (forall toNumber s,
     getChipScale toNumber (CString s) = getChipScale toNumber (CNumber (toNumber s))) /\
  (forall toNumber,
     getChipScale toNumber (CNumber NaN) = Fin 1 /\
     (forall b, getChipScale toNumber (CBoolean b) = Fin 1) /\
     getChipScale toNumber CNull = Fin 1 /\
     getChipScale toNumber COther = Fin 1) /\
  (exists q, getChipScale StringToNumber (CString "120") = Fin q /\ q == 12 # 10) /\
  getChipScale StringToNumber (CString "big") = Fin 1.
Proof.
  split; [exact getChipScale_range|].
  split; [reflexivity|]. split; [reflexivity|].
  split; [intros toNumber; repeat split|].
  split; [eexists; split; [vm_compute; reflexivity|reflexivity]|].
  vm_compute. reflexivity.
Qed.

End NumericOptions.

(* ---- first day of the week ---- *)

Lemma assocLookup_dayName_range s n : assocLookup dayNameToNumber s = Some n -> 0 <= n <= 6.
Proof.
  unfold dayNameToNumber. cbn [assocLookup].
  repeat (destruct (String.eqb _ s); [intros H; injection H as <-; lia|]).
  discriminate.
Qed.

(** X9: the first day of the week set by [loadConfig]: a lower-case day
    name gives its index (sunday = 0 .. saturday = 6); any other string that
    is not an [Object.prototype] member name, such as "Monday", and any
    falsy value give 1; so a string that is not such a member name always
    gives a number in 0..6, while "constructor" gives the inherited member,
    not a number. *)
Theorem weekStartDay_values :
  (forall toKey name n, In (name, n) dayNameToNumber ->
     weekStartDay toKey (CString name) = WNum n) /\
  (forall toKey s, assocLookup dayNameToNumber s = None -> ~ In s objectPrototypeKeys ->
     weekStartDay toKey (CString s) = WNum 1) /\
  (forall toKey v, truthy v = false -> weekStartDay toKey v = WNum 1) /\
  (forall toKey s, ~ In s objectPrototypeKeys ->
     exists n, weekStartDay toKey (CString s) = WNum n /\ 0 <= n <= 6) /\
  (forall toKey, weekStartDay toKey (CString "Monday") = WNum 1 /\
                 weekStartDay toKey (CString "constructor") = WInherited "constructor").
Proof.
  assert (Hnone : forall toKey s, assocLookup dayNameToNumber s = None ->
            ~ In s objectPrototypeKeys -> weekStartDay toKey (CString s) = WNum 1).
  { intros toKey s Hl Hp. unfold weekStartDay, lookupDayName. rewrite Hl.
    destruct (truthy (CString s)); [|reflexivity].
    destruct (existsb (String.eqb s) objectPrototypeKeys) eqn:E; [|reflexivity].
    apply existsb_exists in E as (k & Hk & Ek). apply String.eqb_eq in Ek. subst k.
    contradiction. }
  split.
  { intros toKey name n Hin.
    destruct Hin as [E|[E|[E|[E|[E|[E|[E|[]]]]]]]]; injection E as <- <-; reflexivity. }
  split; [exact Hnone|].
  split.
  { intros toKey v Hv. unfold weekStartDay. rewrite Hv. reflexivity. }
  split.
  { intros toKey s Hp. destruct (assocLookup dayNameToNumber s) as [n|] eqn:E.
    - exists n. split; [|exact (assocLookup_dayName_range s n E)].
      unfold weekStartDay, lookupDayName. rewrite E.
      destruct (truthy (CString s)) eqn:T; [reflexivity|].
      cbn in T. destruct (String.eqb_spec s "") as [->|]; [discriminate E|discriminate T].
    - exists 1. split; [exact (Hnone toKey s E Hp)|lia]. }
  intros toKey. split; reflexivity.
Qed.

(* ---- editability and write-back ---- *)

Lemma prefix_app p s :
  String.prefix p s = true ->
  s = (p ++ String.substring (String.length p) (String.length s - String.length p) s)%string.
Proof.
  revert s. induction p as [|a p IH]; intros s H.
  - cbn. rewrite Nat.sub_0_r. symmetry. apply substring_all.
  - destruct s as [|b s]; [discriminate|]. cbn in H.
    case_match; [|discriminate]. subst b. cbn. f_equal. by apply IH.
Qed.

Lemma startsWith_slice5 s : startsWith "note." s = true -> s = ("note." ++ slice5 s)%string.
Proof. intros H. exact (prefix_app "note." s H). Qed.

Section EditableWrites.
Variable propertyType : string -> string.
Hypothesis propertyType_note :
  forall s, propertyType s = "note"%string <-> startsWith "note." s = true.

Lemma note_type_eqb s : String.eqb (propertyType s) "note" = startsWith "note." s.
Proof.
  destruct (String.eqb_spec (propertyType s) "note") as [E|E];
    destruct (startsWith "note." s) eqn:S; try reflexivity.
  - apply propertyType_note in E. congruence.
  - exfalso. apply E. by apply propertyType_note.
Qed.

(** X10: when [parsePropertyId(id).type] is "note" exactly for the ids
    starting with "note.", [updateEntryDates] changes nothing when
    [isEditable] is false, and when [isEditable] is true the start property
    is some "note.k" and a call without end date writes the new start date
    under the front-matter key [k]. *)
Theorem editable_iff_written (startDateProp endDateProp : option string)
    (fm : FrontMatter) (newStart : Z) (newEnd : option Z) :
  (isEditable propertyType startDateProp endDateProp = false ->
     updateEntryDates startDateProp endDateProp fm newStart newEnd = fm) /\
  (isEditable propertyType startDateProp endDateProp = true ->
     exists k, startDateProp = Some ("note." ++ k)%string /\
       updateEntryDates startDateProp endDateProp fm newStart None = <[k := formatDate newStart]> fm).
Proof.
  unfold isEditable, updateEntryDates.
  destruct startDateProp as [sp|]; [|split; [reflexivity|discriminate]].
  rewrite note_type_eqb.
  destruct (startsWith "note." sp) eqn:Hs; cbn [negb].
  - destruct endDateProp as [ep|].
    + rewrite note_type_eqb. destruct (startsWith "note." ep) eqn:He; cbn.
      * split; [discriminate|]. intros _. exists (slice5 sp).
        split; [f_equal; by apply startsWith_slice5|reflexivity].
      * split; [reflexivity|discriminate].
    + cbn. split; [discriminate|]. intros _. exists (slice5 sp).
      split; [f_equal; by apply startsWith_slice5|reflexivity].
  - cbn. split; [reflexivity|discriminate].
Qed.

End EditableWrites.

Lemma editable_iff_written_witness :
  (forall s, noteType s = "note"%string <-> startsWith "note." s = true) /\
  updateEntryDates (Some "note.due") None ∅ (newDate3 2025 2 10) None =
    <["due" := formatDate (newDate3 2025 2 10)]> ∅.
Proof.
  assert (H : forall s, noteType s = "note"%string <-> startsWith "note." s = true).
  { intros s. unfold noteType.
    destruct (startsWith "note." s); [split; reflexivity|].
    destruct (startsWith "file." s); split; discriminate. }
  split; [exact H|].
  destruct (editable_iff_written noteType H (Some "note.due") None ∅ (newDate3 2025 2 10) None)
    as [_ H2].
  destruct (H2 eq_refl) as (k & Hk & E). injection Hk as <-. exact E.
Defined.

(** X11: dropping an entry that has no end date on the month grid never
    writes an end date, whatever end the widget reports: the front matter
    is unchanged without a new start, and otherwise is what
    [updateEntryDates] writes with no end; every key other than the start
    property's key keeps its value. *)
Theorem drop_without_end_date (startDateProp endDateProp : option string) (fm : FrontMatter)
    (c : CalendarEntry) (newStart newEnd : option Z) (Hend : endDate c = None) :
  dropAndPersist startDateProp endDateProp fm c newStart newEnd =
    match newStart with
    | None => fm
    | Some ns => updateEntryDates startDateProp endDateProp fm ns None
    end /\
  (forall k, startDateProp <> Some ("note." ++ k)%string ->
     dropAndPersist startDateProp endDateProp fm c newStart newEnd !! k = fm !! k).
Proof.
  assert (E : dropAndPersist startDateProp endDateProp fm c newStart newEnd =
    match newStart with
    | None => fm
    | Some ns => updateEntryDates startDateProp endDateProp fm ns None
    end).
  { unfold dropAndPersist, toWidgetEvent, handleEventDrop. cbn [evOriginalEndDate negb].
    rewrite Hend. destruct newStart; reflexivity. }
  split; [exact E|]. intros k Hk. rewrite E.
  destruct newStart as [ns|]; [|reflexivity].
  unfold updateEntryDates. destruct startDateProp as [sp|]; [|reflexivity].
  destruct (startsWith "note." sp) eqn:Hs.
  - assert (slice5 sp <> k).
    { intros <-. apply Hk. f_equal. by apply startsWith_slice5. }
    destruct (negb _); [reflexivity|].
    destruct endDateProp; cbn; by rewrite lookup_insert_ne by congruence.
  - destruct (negb _); reflexivity.
Qed.

Lemma drop_without_end_date_witness :
  endDate (mkEntry "x.md" (newDate3 2025 2 10) None) = None /\
  dropAndPersist (Some "note.start") (Some "note.end") ∅ (mkEntry "x.md" (newDate3 2025 2 10) None)
    (Some (newDate3 2025 2 12)) (Some (newDate3 2025 2 14)) !! "end" = None.
Proof.
  split; [reflexivity|].
  destruct (drop_without_end_date (Some "note.start") (Some "note.end") ∅
              (mkEntry "x.md" (newDate3 2025 2 10) None)
              (Some (newDate3 2025 2 12)) (Some (newDate3 2025 2 14)) eq_refl) as [_ H].
  rewrite (H "end"%string); [reflexivity|discriminate].
Defined.

Lemma Day_shift t k : Day (t + k * msPerDay) = Day t + k.
Proof. unfold Day. apply Z.div_add. unfold msPerDay. lia. Qed.

Lemma adjustedEndDate_eq c e :
  endDate c = Some e ->
  twoDigitYear (getFullYear (startDate c)) = false ->
  twoDigitYear (getFullYear e) = false ->
  evEnd (toWidgetEvent c) = if Day e =? Day (startDate c) then None else Some (e + msPerDay).
Proof.
  intros Hend Hs He.
  unfold toWidgetEvent, adjustedEndDate. cbn [evEnd]. rewrite Hend.
  rewrite (dateOnly_midnight _ Hs), (dateOnly_midnight _ He), midnight_eqb.
  destruct (Day e =? Day (startDate c)); [reflexivity|].
  f_equal. rewrite setDate_shift. lia.
Qed.

(** X12: dragging an entry with an end date by [k] whole days on the month
    grid (the widget moves its start and its exclusive end by [k] days)
    writes the start moved by [k] days and the end moved by [k] days, for
    single-day and multi-day entries alike, so the entry keeps its length
    in days. This holds for start and end years outside 0..99: the widget
    compares the dates rebuilt by [new Date(y, m, d)], which reads those
    years as 1900..1999 (see C3). *)
Theorem drag_by_days_keeps_span (a b : string) (fm : FrontMatter) (c : CalendarEntry) (e0 k : Z)
    (Hb : String.eqb b "" = false) (Hend : endDate c = Some e0)
    (Hys : twoDigitYear (getFullYear (startDate c)) = false)
    (Hye : twoDigitYear (getFullYear e0) = false) :
  dropAndPersist (Some ("note." ++ a)%string) (Some ("note." ++ b)%string) fm c
    (Some (evStart (toWidgetEvent c) + k * msPerDay))
    (option_map (fun t => t + k * msPerDay) (evEnd (toWidgetEvent c))) =
  <[b := formatDate (e0 + k * msPerDay)]> (<[a := formatDate (startDate c + k * msPerDay)]> fm) /\
  Day (e0 + k * msPerDay) - Day (startDate c + k * msPerDay) = Day e0 - Day (startDate c).
Proof.
  split; [|rewrite !Day_shift; lia].
  rewrite (adjustedEndDate_eq c e0 Hend Hys Hye). cbn [evStart toWidgetEvent].
  unfold dropAndPersist, toWidgetEvent, handleEventDrop. cbn [evOriginalEndDate negb].
  rewrite Hend. unfold updateEntryDates. rewrite !startsWith_note, !slice5_note.
  destruct (Z.eqb_spec (Day e0) (Day (startDate c))) as [Hd|Hd]; cbn; rewrite Hb.
  - f_equal. apply formatDate_inj. rewrite !Day_shift. lia.
  - rewrite setDate_prev. do 2 f_equal. lia.
Qed.

Lemma drag_by_days_keeps_span_witness :
  String.eqb "end" "" = false /\
  endDate (mkEntry "x.md" (newDate3 2025 2 30) (Some (newDate3 2025 3 2))) = Some (newDate3 2025 3 2) /\
  twoDigitYear (getFullYear (newDate3 2025 2 30)) = false /\
  twoDigitYear (getFullYear (newDate3 2025 3 2)) = false /\
  dropAndPersist (Some "note.start") (Some "note.end") ∅
    (mkEntry "x.md" (newDate3 2025 2 30) (Some (newDate3 2025 3 2)))
    (Some (newDate3 2025 2 30 + 3 * msPerDay))
    (option_map (fun t => t + 3 * msPerDay)
       (evEnd (toWidgetEvent (mkEntry "x.md" (newDate3 2025 2 30) (Some (newDate3 2025 3 2)))))) =
  <["end" := formatDate (newDate3 2025 3 2 + 3 * msPerDay)]>
    (<["start" := formatDate (newDate3 2025 2 30 + 3 * msPerDay)]> ∅).
Proof.
  assert (Hs : twoDigitYear (getFullYear (newDate3 2025 2 30)) = false) by (vm_compute; reflexivity).
  assert (He : twoDigitYear (getFullYear (newDate3 2025 3 2)) = false) by (vm_compute; reflexivity).
  split; [reflexivity|]. split; [reflexivity|]. split; [exact Hs|]. split; [exact He|].
  exact (proj1 (drag_by_days_keeps_span "start" "end" ∅
           (mkEntry "x.md" (newDate3 2025 2 30) (Some (newDate3 2025 3 2)))
           (newDate3 2025 3 2) 3 eq_refl eq_refl Hs He)).
Defined.

(* ---- trimming ---- *)

Lemma trimEnd_idem s : trimEnd (trimEnd s) = trimEnd s.
Proof.
  induction s as [|c s IH]; [reflexivity|]. cbn [trimEnd].
  destruct (js_ws c && String.eqb (trimEnd s) "") eqn:E; [reflexivity|].
  cbn [trimEnd]. rewrite IH, E. reflexivity.
Qed.

Lemma trimStart_head s :
  trimStart s = ""%string \/ exists c t, trimStart s = String c t /\ js_ws c = false.
Proof.
  induction s as [|c s IH]; [left; reflexivity|]. cbn [trimStart].
  destruct (js_ws c) eqn:E; [exact IH|]. right. eauto.
Qed.

Lemma jsTrim_idem s : jsTrim (jsTrim s) = jsTrim s.
Proof.
  unfold jsTrim.
  assert (H : trimStart (trimEnd (trimStart s)) = trimEnd (trimStart s)).
  { destruct (trimStart_head s) as [->|(c & t & -> & Hc)]; [reflexivity|].
    cbn [trimEnd]. rewrite Hc. cbn [andb trimStart]. rewrite Hc. reflexivity. }
  rewrite H. apply trimEnd_idem.
Qed.

(* ---- character predicates ---- *)

Lemma all_chars_trimStart p s : all_chars p s = true -> all_chars p (trimStart s) = true.
Proof.
  induction s as [|c s IH]; cbn; [auto|]. intros H. apply andb_prop in H as [Hc Hs].
  destruct (js_ws c); [auto|]. cbn. by rewrite Hc, Hs.
Qed.

Lemma all_chars_trimEnd p s : all_chars p s = true -> all_chars p (trimEnd s) = true.
Proof.
  induction s as [|c s IH]; cbn; [auto|]. intros H. apply andb_prop in H as [Hc Hs].
  destruct (_ && _); [reflexivity|]. cbn. rewrite Hc. auto.
Qed.

Lemma all_chars_jsTrim p s : all_chars p s = true -> all_chars p (jsTrim s) = true.
Proof. intros H. apply all_chars_trimEnd, all_chars_trimStart, H. Qed.

Lemma all_chars_substring p n m s :
  all_chars p s = true -> all_chars p (String.substring n m s) = true.
Proof.
  revert n m. induction s as [|c s IH]; intros n m H.
  - destruct n, m; reflexivity.
  - cbn in H. apply andb_prop in H as [Hc Hs].
    destruct n as [|n]; [destruct m as [|m]|]; cbn; [reflexivity| |].
    + rewrite Hc. by apply IH.
    + by apply IH.
Qed.

Lemma all_chars_strip_quotes p s : all_chars p s = true -> all_chars p (strip_quotes s) = true.
Proof.
  intros H. unfold strip_quotes.
  assert (H1 : all_chars p (match s with
                            | String c r => if is_quote c then r else s
                            | EmptyString => EmptyString
                            end) = true).
  { destruct s as [|c r]; [reflexivity|]. cbn in H. apply andb_prop in H as [Hc Hr].
    destruct (is_quote c); [exact Hr|]. cbn. by rewrite Hc, Hr. }
  revert H1. generalize (match s with
                         | String c r => if is_quote c then r else s
                         | EmptyString => EmptyString
                         end). intros s1 H1.
  destruct (String.get _ s1); [|exact H1].
  destruct (_ && _); [by apply all_chars_substring|exact H1].
Qed.

Lemma all_chars_cut_at p c s : all_chars p s = true -> all_chars p (cut_at c s) = true.
Proof.
  induction s as [|x s IH]; cbn; [auto|]. intros H. apply andb_prop in H as [Hx Hs].
  destruct (Ascii.eqb x c); [reflexivity|]. cbn. rewrite Hx. auto.
Qed.

Lemma cut_at_excludes c s : all_chars (fun x => negb (Ascii.eqb x c)) (cut_at c s) = true.
Proof.
  induction s as [|x s IH]; [reflexivity|]. cbn.
  destruct (Ascii.eqb x c) eqn:E; [reflexivity|]. cbn. rewrite E. exact IH.
Qed.

Lemma all_chars_and p q s :
  all_chars p s = true -> all_chars q s = true -> all_chars (fun x => p x && q x) s = true.
Proof.
  induction s as [|c s IH]; cbn; [auto|]. intros Hp Hq.
  apply andb_prop in Hp as [Hp1 Hp2]. apply andb_prop in Hq as [Hq1 Hq2].
  rewrite Hp1, Hq1. cbn. auto.
Qed.

Lemma sanitizeReference_some r v :
  sanitizeReference r = Some v ->
  v <> ""%string /\ jsTrim v = v /\ all_chars no_pipe_hash v = true.
Proof.
  unfold sanitizeReference.
  destruct (String.eqb (jsTrim r) "") ; [discriminate|].
  set (w := match mdImageMatch _ with Some g => g | None => _ end).
  set (x := jsTrim (strip_quotes (cut_at "#" (cut_at "|" w)))).
  destruct (String.eqb_spec x "") as [_|Hx]; [discriminate|].
  intros E. injection E as <-. split; [exact Hx|]. split; [apply jsTrim_idem|].
  unfold x. apply all_chars_jsTrim, all_chars_strip_quotes.
  apply all_chars_and.
  - apply all_chars_cut_at, cut_at_excludes.
  - apply cut_at_excludes.
Qed.

(** X13: a reference accepted by [sanitizeReference] is non-empty, already
    trimmed, and contains no "|" and no "#"; a blank reference is refused;
    embeds, Markdown images, headings and quotes are stripped as in
    "![[photo.png|300]]" -> "photo.png", "![alt text](imgs/a b.jpg)" ->
    "imgs/a b.jpg", "[[note#heading]]" -> "note", "'x.png'" -> "x.png". *)
Theorem sanitizeReference_output :
  (forall reference v, sanitizeReference reference = Some v ->
     v <> ""%string /\ jsTrim v = v /\
     all_chars no_pipe_hash v = true) /\
  (forall reference, jsTrim reference = ""%string -> sanitizeReference reference = None) /\
  sanitizeReference "![[photo.png|300]]" = Some "photo.png"%string /\
  sanitizeReference "  ![alt text](imgs/a b.jpg)  " = Some "imgs/a b.jpg"%string /\
  sanitizeReference "[[note#heading]]" = Some "note"%string /\
  sanitizeReference "'x.png'" = Some "x.png"%string.
Proof.
  split; [exact sanitizeReference_some|].
  split.
  { intros r H. unfold sanitizeReference. rewrite H. reflexivity. }
  repeat split; vm_compute; reflexivity.
Qed.

